(** * nextcord.ext.help_commands.paginated

    A shallow embedding of [src/nextcord/ext/help_commands/paginated.py]:
    the page source [HelpPageSource], the menu [HelpButtonMenuPages] and the
    help command [PaginatedHelpCommand], followed by the properties the
    specification states about them.

    Conventions.
    - A Python [str] is a [string] holding its UTF-8 bytes.  Concatenation,
      [join] and emptiness agree with the code-point view of Python.
    - A Python [int] is a [Z].
    - An attribute that may be [None] is an [option].
    - A coroutine is modelled by what awaiting it does: a value of type
      [Async], which threads the log of the messages handed to the host
      framework; a coroutine that sends nothing is a plain function. *)

From stdpp Require Import gmap strings list.
From Stdlib Require Import ZArith QArith Qround DecimalString DecimalZ DecimalPos.

Local Open Scope Z_scope.
Local Open Scope string_scope.

(** ** Python values *)

Module Py.

(** The characters the source writes with an escape. *)
Definition chr (n : nat) : string := String (Ascii.ascii_of_nat n) EmptyString.
Definition newline : string := chr 10.
Definition dquote : string := chr 34.
Definition backtick : string := chr 96.
(** U+2002 EN SPACE, in UTF-8. *)
Definition en_space : string :=
  String (Ascii.ascii_of_nat 226)
    (String (Ascii.ascii_of_nat 128)
       (String (Ascii.ascii_of_nat 130) EmptyString)).

(** Truth value of a [str]: false exactly for the empty string. *)
Definition truthy (s : string) : bool :=
  match s with
  | EmptyString => false
  | String _ _ => true
  end.

(** [x or d], for [x] a [str] or [None] and [d] a [str]. *)
Definition or_ (x : option string) (d : string) : string :=
  match x with
  | Some s => if truthy s then s else d
  | None => d
  end.

(** [sep.join(parts)]. *)
Definition join (sep : string) (parts : list string) : string :=
  String.concat sep parts.

(** [str(n)], which is also how an f-string renders an [int]. *)
Definition str_of_int (n : Z) : string :=
  NilZero.string_of_int (Z.to_int n).

(** [int(s)] for a decimal numeral; it reads a rendered number back. *)
Definition int_of_str (s : string) : option Z :=
  Z.of_int <$> NilZero.int_of_string s.

(** [divmod(a, b)] of Python: floor division and its remainder. *)
Definition divmod (a b : Z) : Z * Z := (a / b, a mod b).

(** Truth value of an [int]. *)
Definition truthy_int (n : Z) : bool := negb (n =? 0)%Z.

(** [l[lo:hi]] for [0 <= lo]: the slice is clipped to the list. *)
Definition slice {A} (l : list A) (lo hi : Z) : list A :=
  take (Z.to_nat (hi - lo)) (drop (Z.to_nat lo) l).

End Py.

(** ** The host framework: what [nextcord] and [nextcord.ext.commands] supply

    Only the attributes the source reads are kept. *)

Module User.
Record t := mk { id : Z }.
(** [a == other]: [__eq__] of the framework's users compares the snowflake
    ids, and no user equals [None]. *)
Definition eq (a : t) (other : option t) : bool :=
  match other with
  | Some b => (id a =? id b)%Z
  | None => false
  end.
End User.

Module Context.
Record t := mk { clean_prefix : string; author : User.t }.
End Context.

Module Interaction.
(** [interaction.user] is a user or [None]. *)
Record t := mk { user : option User.t }.
End Interaction.

Module Command.
(** A [commands.Command]; [commands] is the attribute of the same name of
    a [commands.Group], and [None] for a command that is not a group. *)
#[warnings="-register-all"]
Inductive t := mk {
  name : string;
  qualified_name : string;
  signature : string;
  help : option string;
  short_doc : option string;
  commands : option (list t)
}.

(** [isinstance(c, commands.Group)]. *)
Definition is_group (c : t) : bool :=
  match commands c with
  | Some _ => true
  | None => false
  end.
End Command.

Module Cog.
Record t := mk {
  qualified_name : string;
  description : string;
  get_commands : list Command.t
}.
End Cog.

Definition Colour := Z.
Definition Channel := Z.

Module Embed.
Record field := mk_field { name : string; value : string; inline : bool }.

Record t := mk {
  title : option string;
  colour : option Colour;
  description : option string;
  fields : list field;
  footer : option string
}.

(** [nextcord.Embed(title=.., colour=..)]. *)
Definition new (title : string) (colour : Colour) : t :=
  {| title := Some title; colour := Some colour; description := None;
     fields := []; footer := None |}.

(** [embed.description = d]. *)
Definition set_description (e : t) (d : string) : t :=
  {| title := title e; colour := colour e; description := Some d;
     fields := fields e; footer := footer e |}.

(** [embed.add_field(name=.., value=.., inline=..)] appends one field. *)
Definition add_field (e : t) (n v : string) (i : bool) : t :=
  {| title := title e; colour := colour e; description := description e;
     fields := (fields e ++ [mk_field n v i])%list; footer := footer e |}.

(** [embed.set_footer(text=..)]. *)
Definition set_footer (e : t) (text : string) : t :=
  {| title := title e; colour := colour e; description := description e;
     fields := fields e; footer := Some text |}.
End Embed.

(** ** The menus add-on: [nextcord.ext.menus]

    The add-on is an optional dependency and no file of it is part of the
    repository.  The two classes the source inherits from are modelled here
    with the attributes and methods the source relies on. *)

Module menus.

Module ListPageSource.
Record t := mk {
  entries : list (string * string);
  per_page : Z;
  _max_pages : Z
}.

(** Modelled from the spec: [ListPageSource.__init__] of the menus add-on
    is missing.  The spec calls a page source an adapter that slices a
    list into fixed-size pages for sequential display; the number of
    pages is the quotient of the length by the page size, plus one when
    entries are left over. *)
Definition __init__ (entries : list (string * string)) (per_page : Z) : t :=
  let '(pages, left_over) := Py.divmod (Z.of_nat (length entries)) per_page in
  let pages := if Py.truthy_int left_over then pages + 1 else pages in
  {| entries := entries; per_page := per_page; _max_pages := pages |}.

(** Modelled from the spec: [ListPageSource.get_max_pages] of the menus
    add-on is missing; it is the number of pages of the source. *)
Definition get_max_pages (self : t) : Z := _max_pages self.

(** Modelled from the spec: [ListPageSource.get_page] of the menus add-on
    is missing.  Page [page_number] (zero-based) is the slice of
    [per_page] consecutive entries that starts at
    [page_number * per_page]. *)
Definition get_page (self : t) (page_number : Z) : list (string * string) :=
  let base := page_number * per_page self in
  Py.slice (entries self) base (base + per_page self).

(** Modelled from the spec: the pages of the source in sequence, that is
    the pages [0 .. get_max_pages - 1]. *)
Definition pages (self : t) : list (list (string * string)) :=
  (fun k => get_page self (Z.of_nat k)) <$> seq 0 (Z.to_nat (get_max_pages self)).
End ListPageSource.

Module ButtonMenuPages.
(** The state of a menu that the source touches: the keyword arguments
    it passes to the constructor and the page-state [current_page]. *)
Record t {S : Type} := mk {
  source : S;
  disable_buttons_after : bool;
  current_page : Z
}.
Arguments t : clear implicits.

(** Modelled from the spec: [ButtonMenuPages.__init__] of the menus
    add-on is missing; page-state tracking is the add-on's, and a new
    menu shows the first page. *)
Definition __init__ {S : Type} (source : S) (disable_buttons_after : bool) : t S :=
  {| source := source; disable_buttons_after := disable_buttons_after;
     current_page := 0 |}.

(** Modelled from the spec: the page-state tracking of the menus add-on is
    missing.  A menu shows page 0 when it is started, whatever its source
    holds, and afterwards turns to a page number only when that number is
    at least 0 and below [get_max_pages] of its source.  [shows max_pages k]
    tells whether a menu over a source of [max_pages] pages can show page
    number [k]. *)
Definition shows (max_pages page_number : Z) : bool :=
  (page_number =? 0)%Z || ((0 <=? page_number)%Z && (page_number <? max_pages)%Z).
End ButtonMenuPages.

End menus.

(** ** Module level: the optional import *)

Module Globals.
Record t := mk { HAS_MENUS : bool }.
End Globals.

(** The [try: from nextcord.ext import menus ... except ImportError: ...]
    block; [importable] tells whether the import succeeds. *)
Definition module_init (importable : bool) : Globals.t :=
  if importable
  then {| Globals.HAS_MENUS := true |}
  else {| Globals.HAS_MENUS := false |}.

(** [.errors] is not among the sources; the exception is kept as the
    arguments the source constructs it with. *)
Inductive exception :=
  | MissingDependencyError (cls : string) (dependency : string) (import_name : string).

(** ** The instance attributes of a help command

    Everything but [COLOUR] is inherited from the framework's
    [commands.MinimalHelpCommand]. *)

Module HelpCommand.
Record t := mk {
  (** [self.__class__.__name__] *)
  class_name : string;
  (** the class attribute [COLOUR], read through [self] *)
  COLOUR : Colour;
  context : Context.t;
  invoked_with : string;
  (** [await self.filter_commands(commands, sort=sort)] *)
  filter_commands : list Command.t -> bool -> list Command.t;
  (** [self.get_destination()] *)
  get_destination : Channel
}.
End HelpCommand.

(** ** [class HelpPageSource(ListPageSource)] *)

Module HelpPageSource.
Record t := mk {
  _help_command : HelpCommand.t;
  (** the part of the object that belongs to the base class *)
  base : menus.ListPageSource.t
}.

Definition __init__ (help_command : HelpCommand.t) (data : list (string * string)) : t :=
  {| _help_command := help_command;
     base := menus.ListPageSource.__init__ data 2 |}.

(** Inherited from the base class. *)
Definition get_max_pages (self : t) : Z :=
  menus.ListPageSource.get_max_pages (base self).

(** The two-line hint that both [format_page] and [send_bot_help] build
    from the prefix and the name the help command was invoked with. *)
Definition usage (prefix invoked_with : string) : string :=
  "Use " +:+ Py.dquote +:+ prefix +:+ invoked_with +:+ " command" +:+ Py.dquote
    +:+ " for more info on a command." +:+ Py.newline
    +:+ "Use " +:+ Py.dquote +:+ prefix +:+ invoked_with +:+ " category" +:+ Py.dquote
    +:+ " for more info on a category.".

(** Awaiting [format_page(menu, entries)] returns the embed of one page. *)
Definition format_page {S : Type} (self : t) (menu : menus.ButtonMenuPages.t S)
    (entries : list (string * string)) : Embed.t :=
  let prefix := Context.clean_prefix (HelpCommand.context (_help_command self)) in
  let invoked_with := HelpCommand.invoked_with (_help_command self) in
  let embed := Embed.new "Bot Commands" (HelpCommand.COLOUR (_help_command self)) in
  let embed := Embed.set_description embed (usage prefix invoked_with) in
  let embed :=
    fold_left (fun embed entry => Embed.add_field embed (fst entry) (snd entry) true)
      entries embed in
  let embed :=
    Embed.set_footer embed
      ("Page " +:+ Py.str_of_int (menus.ButtonMenuPages.current_page menu + 1)
         +:+ "/" +:+ Py.str_of_int (get_max_pages self)) in
  embed.
End HelpPageSource.

(** ** [class HelpButtonMenuPages(ButtonMenuPages)] *)

Module HelpButtonMenuPages.
Record t := mk {
  (** the part of the object that belongs to the base class *)
  base : menus.ButtonMenuPages.t HelpPageSource.t;
  _ctx : Context.t
}.

(** [__init__(self, ctx, **kwargs)]; the source passes the keyword
    arguments [source] and [disable_buttons_after]. *)
Definition __init__ (ctx : Context.t) (source : HelpPageSource.t)
    (disable_buttons_after : bool) : t :=
  {| base := menus.ButtonMenuPages.__init__ source disable_buttons_after;
     _ctx := ctx |}.

(** Awaiting [interaction_check(interaction)] returns this boolean. *)
Definition interaction_check (self : t) (interaction : Interaction.t) : bool :=
  User.eq (Context.author (_ctx self)) (Interaction.user interaction).

(** Modelled from the spec: the display step of the menus add-on is
    missing.  To show a page the menu first fetches the page at its
    [current_page] from its source, with [get_page]. *)
Definition current_entries (self : t) : list (string * string) :=
  menus.ListPageSource.get_page
    (HelpPageSource.base (menus.ButtonMenuPages.source (base self)))
    (menus.ButtonMenuPages.current_page (base self)).

(** Modelled from the spec: the display step of the menus add-on is
    missing.  The menu hands the fetched page, with itself, to
    [format_page] of its source; the embed returned is what it displays. *)
Definition show_current_page (self : t) : Embed.t :=
  HelpPageSource.format_page (menus.ButtonMenuPages.source (base self))
    (base self) (current_entries self).
End HelpButtonMenuPages.

(** ** Coroutines that talk to the framework *)

Inductive Effect :=
  (** [await destination.send(embed=embed)] *)
  | Send (destination : Channel) (embed : Embed.t)
  (** [await pages.start(ctx)] *)
  | Start (pages : HelpButtonMenuPages.t) (ctx : Context.t).

Definition Async (A : Type) : Type := list Effect -> A * list Effect.

Definition emit (e : Effect) : Async unit := fun log => (tt, (log ++ [e])%list).

(** The effects of a coroutine run from an empty log. *)
Definition run {A : Type} (m : Async A) : list Effect := snd (m []).

(** ** [class PaginatedHelpCommand(commands.MinimalHelpCommand)] *)

Module PaginatedHelpCommand.
Definition t := HelpCommand.t.

(** [__init__(self)].  [super_init] is what the framework's
    [MinimalHelpCommand.__init__] does to the object. *)
Definition __init__ (g : Globals.t) (super_init : t -> t) (self : t) : exception + t :=
  if negb (Globals.HAS_MENUS g)
  then inl (MissingDependencyError (HelpCommand.class_name self) "nextcord-ext-menus" "menus")
  else inr (super_init self).

Definition get_command_signature (self : t) (command : Command.t) : string :=
  Context.clean_prefix (HelpCommand.context self)
    +:+ Command.qualified_name command +:+ " " +:+ Command.signature command.

(** One round of the loop of [send_bot_help] over [mapping.items()]. *)
Definition bot_help_step (self : t) (prefix : string)
    (embed_fields : list (string * string))
    (item : option Cog.t * list Command.t) : list (string * string) :=
  let '(cog, commands) := item in
  let name :=
    match cog with
    | None => "No Category"
    | Some c => Cog.qualified_name c
    end in
  let filtered := HelpCommand.filter_commands self commands true in
  match filtered with
  | [] => embed_fields
  | _ :: _ =>
      let value :=
        Py.join Py.en_space
          ((fun c => Py.backtick +:+ prefix +:+ Command.name c +:+ Py.backtick)
             <$> filtered) in
      let value :=
        match cog with
        | Some c =>
            if Py.truthy (Cog.description c)
            then Cog.description c +:+ Py.newline +:+ value
            else value
        | None => value
        end in
      (embed_fields ++ [(name, value)])%list
  end.

(** The list [embed_fields] once the loop is over. *)
Definition bot_help_fields (self : t)
    (mapping : list (option Cog.t * list Command.t)) : list (string * string) :=
  let prefix := Context.clean_prefix (HelpCommand.context self) in
  fold_left (bot_help_step self prefix) mapping [].

(** [mapping] is a [dict]; it is kept as the list of its items in
    iteration order.  The embed the source builds first is never sent. *)
Definition send_bot_help (self : t)
    (mapping : list (option Cog.t * list Command.t)) : Async unit :=
  let prefix := Context.clean_prefix (HelpCommand.context self) in
  let invoked_with := HelpCommand.invoked_with self in
  let embed := Embed.new "Bot Commands" (HelpCommand.COLOUR self) in
  let embed := Embed.set_description embed (HelpPageSource.usage prefix invoked_with) in
  let embed_fields := bot_help_fields self mapping in
  let pages :=
    HelpButtonMenuPages.__init__ (HelpCommand.context self)
      (HelpPageSource.__init__ self embed_fields) true in
  emit (Start pages (HelpCommand.context self)).

(** The loop shared by [send_cog_help] and [send_group_help]: one field
    per command of [filtered]. *)
Definition add_command_fields (self : t) (filtered : list Command.t)
    (embed : Embed.t) : Embed.t :=
  fold_left
    (fun embed command =>
       Embed.add_field embed (get_command_signature self command)
         (Py.or_ (Command.short_doc command) "...") false)
    filtered embed.

Definition send_cog_help (self : t) (cog : Cog.t) : Async unit :=
  let embed :=
    Embed.new (Cog.qualified_name cog +:+ " Commands") (HelpCommand.COLOUR self) in
  let embed :=
    if Py.truthy (Cog.description cog)
    then Embed.set_description embed (Cog.description cog)
    else embed in
  let filtered := HelpCommand.filter_commands self (Cog.get_commands cog) true in
  let embed := add_command_fields self filtered embed in
  let embed :=
    Embed.set_footer embed
      ("Use " +:+ Context.clean_prefix (HelpCommand.context self)
         +:+ "help [command] for more info on a command.") in
  emit (Send (HelpCommand.get_destination self) embed).

Definition send_group_help (self : t) (group : Command.t) : Async unit :=
  let embed := Embed.new (Command.qualified_name group) (HelpCommand.COLOUR self) in
  let embed :=
    match Command.help group with
    | Some h => if Py.truthy h then Embed.set_description embed h else embed
    | None => embed
    end in
  let embed :=
    match Command.commands group with
    | Some commands =>
        let filtered := HelpCommand.filter_commands self commands true in
        add_command_fields self filtered embed
    | None => embed
    end in
  emit (Send (HelpCommand.get_destination self) embed).

(** [send_command_help = send_group_help] *)
Definition send_command_help : t -> Command.t -> Async unit := send_group_help.
End PaginatedHelpCommand.

(** ** The body of [class PaginatedHelpCommand], statement by statement

    Executing a class body fills the namespace of the class: a [def] binds
    its name to a new function object, an assignment binds its target to
    the value of its right-hand side. *)

Module ClassBody.
(** The function objects the [def] statements of the class create. *)
Inductive function :=
  | def___init__
  | def_get_command_signature
  | def_send_bot_help
  | def_send_cog_help
  | def_send_group_help.

Inductive value :=
  | Function (f : function)
  | Constant (c : Colour)
  | Text (s : string).

(** [callable(v)] *)
Definition callable (v : value) : bool :=
  match v with
  | Function _ => true
  | Constant _ => false
  | Text _ => false
  end.

Inductive stmt :=
  (** a binding to a [str]: the docstring, which binds [__doc__], and the
      names Python binds itself before the body runs *)
  | AssignText (target : string) (s : string)
  (** [target = <expression of value c>] *)
  | AssignValue (target : string) (c : Colour)
  (** [def name(...): ...] *)
  | Def (name : string) (f : function)
  (** [target = source], with [source] a name *)
  | AssignName (target source : string).

(** One statement; [None] is a [NameError]. *)
Definition exec (ns : gmap string value) (s : stmt) : option (gmap string value) :=
  match s with
  | AssignText x s => Some (<[x := Text s]> ns)
  | AssignValue x c => Some (<[x := Constant c]> ns)
  | Def x f => Some (<[x := Function f]> ns)
  | AssignName x y =>
      match ns !! y with
      | Some v => Some (<[x := v]> ns)
      | None => None
      end
  end.

Fixpoint exec_all (ns : gmap string value) (body : list stmt)
    : option (gmap string value) :=
  match body with
  | [] => Some ns
  | s :: rest =>
      match exec ns s with
      | Some ns' => exec_all ns' rest
      | None => None
      end
  end.

(** The statements of the class, in source order, after the two bindings
    Python makes on entering a class body ([__module__], the name of the
    module, and [__qualname__]); the docstring comes first.  [blurple] is
    the value of [nextcord.Colour.blurple()]. *)
Definition body (blurple : Colour) : list stmt :=
  [ AssignText "__module__" "nextcord.ext.help_commands.paginated";
    AssignText "__qualname__" "PaginatedHelpCommand";
    AssignText "__doc__"
      "Custom help command override using embeds and button pagination";
    AssignValue "COLOUR" blurple;
    Def "__init__" def___init__;
    Def "get_command_signature" def_get_command_signature;
    Def "send_bot_help" def_send_bot_help;
    Def "send_cog_help" def_send_cog_help;
    Def "send_group_help" def_send_group_help;
    AssignName "send_command_help" "send_group_help" ].

Definition namespace (blurple : Colour) : option (gmap string value) :=
  exec_all ∅ (body blurple).

(** The coroutine a function object runs when it is called with a help
    command and one command; only [send_group_help] is written for such
    a call. *)
Definition coroutine_of (f : function)
    : option (PaginatedHelpCommand.t -> Command.t -> Async unit) :=
  match f with
  | def_send_group_help => Some PaginatedHelpCommand.send_group_help
  | _ => None
  end.

(** [await self.<attr>(command)], resolved through the class namespace. *)
Definition call (blurple : Colour) (attr : string)
    (self : PaginatedHelpCommand.t) (command : Command.t) : option (Async unit) :=
  match namespace blurple with
  | Some ns =>
      match ns !! attr with
      | Some (Function f) =>
          match coroutine_of f with
          | Some body => Some (body self command)
          | None => None
          end
      | _ => None
      end
  | None => None
  end.
End ClassBody.

(** ** The field list of the bot help, as the specification words it

    One pair per cog whose filtered command list is not empty, in the order
    of the mapping.  This is the second definition that [send_bot_help] is
    compared with. *)

Module Spec.
(** The name of a pair: the qualified name of the cog, or [No Category]. *)
Definition field_name (cog : option Cog.t) : string :=
  from_option Cog.qualified_name "No Category" cog.

(** The names of the commands, each written as prefix and name between
    backticks, joined by an en space. *)
Definition command_names (prefix : string) (filtered : list Command.t) : string :=
  Py.join Py.en_space
    ((fun c => Py.backtick +:+ prefix +:+ Command.name c +:+ Py.backtick) <$> filtered).

(** The description of the cog and a newline go first when there is a
    cog and its description is not empty. *)
Definition field_value (prefix : string) (cog : option Cog.t)
    (filtered : list Command.t) : string :=
  match cog with
  | Some c =>
      if String.eqb (Cog.description c) EmptyString
      then command_names prefix filtered
      else Cog.description c +:+ Py.newline +:+ command_names prefix filtered
  | None => command_names prefix filtered
  end.

Definition has_commands (self : HelpCommand.t)
    (item : option Cog.t * list Command.t) : bool :=
  negb (Nat.eqb (length (HelpCommand.filter_commands self (snd item) true)) 0).

Definition bot_help_fields (self : HelpCommand.t)
    (mapping : list (option Cog.t * list Command.t)) : list (string * string) :=
  let prefix := Context.clean_prefix (HelpCommand.context self) in
  (fun item =>
     (field_name (fst item),
      field_value prefix (fst item)
        (HelpCommand.filter_commands self (snd item) true)))
    <$> List.filter (has_commands self) mapping.
End Spec.

(** ** A small bot, for running the definitions *)

Module Sample.
Definition alice : User.t := User.mk 1001.
Definition bob : User.t := User.mk 1002.

Definition ctx : Context.t := Context.mk "!" alice.

Definition ping : Command.t :=
  Command.mk "ping" "ping" "" (Some "Replies with pong.") (Some "Replies with pong.") None.
Definition echo : Command.t :=
  Command.mk "echo" "echo" "<text>" None (Some "") None.
Definition ban : Command.t :=
  Command.mk "ban" "mod ban" "<member> [reason]" (Some "Bans a member.") None None.
Definition kick : Command.t :=
  Command.mk "kick" "mod kick" "<member>" (Some "Kicks a member.") (Some "Kicks a member.") None.
Definition mod_group : Command.t :=
  Command.mk "mod" "mod" "" (Some "Moderation.") (Some "Moderation.") (Some [kick; ban]).
Definition secret : Command.t :=
  Command.mk "_secret" "_secret" "" None None None.

Definition fun_cog : Cog.t := Cog.mk "Fun" "Games and toys" [ping; echo].
Definition mod_cog : Cog.t := Cog.mk "Moderation" "" [mod_group].
Definition empty_cog : Cog.t := Cog.mk "Empty" "Nothing to see" [secret].

(** A stand-in for the framework's [filter_commands]: commands whose name
    starts with an underscore are hidden, and [sort=True] sorts the rest
    by name. *)
Definition visible (c : Command.t) : bool :=
  match Command.name c with
  | String a _ => negb (Ascii.eqb a (Ascii.ascii_of_nat 95))
  | EmptyString => true
  end.

Fixpoint insert_by_name (c : Command.t) (l : list Command.t) : list Command.t :=
  match l with
  | [] => [c]
  | d :: l' =>
      if String.leb (Command.name c) (Command.name d)
      then c :: l
      else d :: insert_by_name c l'
  end.

Definition sort_by_name (l : list Command.t) : list Command.t :=
  foldr insert_by_name [] l.

Definition filter_commands (commands : list Command.t) (sort : bool) : list Command.t :=
  let kept := List.filter visible commands in
  if sort then sort_by_name kept else kept.

Definition help : HelpCommand.t :=
  {| HelpCommand.class_name := "PaginatedHelpCommand";
     HelpCommand.COLOUR := 5793266;
     HelpCommand.context := ctx;
     HelpCommand.invoked_with := "help";
     HelpCommand.filter_commands := filter_commands;
     HelpCommand.get_destination := 77 |}.

Definition mapping : list (option Cog.t * list Command.t) :=
  [ (Some fun_cog, [ping; echo]);
    (Some empty_cog, [secret]);
    (Some mod_cog, [mod_group]);
    (None, [kick; ban]) ].

(** Three entries: a full page and a last page of one entry. *)
Definition entries : list (string * string) :=
  [ ("Fun", "`!echo`"); ("Moderation", "`!mod`"); ("No Category", "`!ban`") ].

Definition source : HelpPageSource.t := HelpPageSource.__init__ help entries.

(** The menu of [source], turned to its second page. *)
Definition menu : menus.ButtonMenuPages.t HelpPageSource.t :=
  {| menus.ButtonMenuPages.source := source;
     menus.ButtonMenuPages.disable_buttons_after := true;
     menus.ButtonMenuPages.current_page := 1 |}.

(** The same menu as a [HelpButtonMenuPages]. *)
Definition help_menu : HelpButtonMenuPages.t :=
  {| HelpButtonMenuPages.base := menu; HelpButtonMenuPages._ctx := ctx |}.

(** The menu [send_bot_help] builds when no command passes the filter: a
    new menu over a source without entries. *)
Definition empty_menu : HelpButtonMenuPages.t :=
  HelpButtonMenuPages.__init__ ctx (HelpPageSource.__init__ help []) true.
End Sample.

(** * Properties *)


(** ** Embeds *)

Section embed_loops.
Context {A : Type} (n v : A -> string) (i : bool).

Local Abbreviation loop l e :=
  (fold_left (fun e x => Embed.add_field e (n x) (v x) i) l e).

Lemma add_field_loop_fields l e :
  Embed.fields (loop l e)
  = (Embed.fields e ++ ((fun x => Embed.mk_field (n x) (v x) i) <$> l))%list.
Proof.
  revert e. induction l as [|x l IH]; intros e; simpl.
  - by rewrite app_nil_r.
  - rewrite IH. simpl. by rewrite <- app_assoc.
Qed.

Lemma add_field_loop_rest l e :
  Embed.title (loop l e) = Embed.title e
  /\ Embed.colour (loop l e) = Embed.colour e
  /\ Embed.description (loop l e) = Embed.description e
  /\ Embed.footer (loop l e) = Embed.footer e.
Proof.
  revert e. induction l as [|x l IH]; intros e; simpl; [done|].
  destruct (IH (Embed.add_field e (n x) (v x) i)) as (-> & -> & -> & ->).
  done.
Qed.
End embed_loops.

Lemma format_page_pairs {S : Type} (self : HelpPageSource.t)
    (menu : menus.ButtonMenuPages.t S) (entries : list (string * string)) :
  (fun f => (Embed.name f, Embed.value f))
    <$> Embed.fields (HelpPageSource.format_page self menu entries)
  = entries.
Proof.
  unfold HelpPageSource.format_page. cbn zeta. simpl Embed.fields.
  rewrite (add_field_loop_fields (A := string * string) fst snd true). simpl.
  rewrite <- list_fmap_compose. rewrite <- (list_fmap_id entries) at 2.
  apply list_fmap_ext. by intros _ [a b] _.
Qed.

(** C6: awaiting [format_page] returns one embed, titled [Bot Commands],
    whose fields are the entries of the page, in order: the name of a field
    is the first component of its entry and its value the second. *)
Theorem format_page_fields {S : Type} (self : HelpPageSource.t)
    (menu : menus.ButtonMenuPages.t S) (entries : list (string * string)) :
  let embed := HelpPageSource.format_page self menu entries in
  Embed.title embed = Some "Bot Commands"
  /\ (fun f => (Embed.name f, Embed.value f)) <$> Embed.fields embed = entries
  /\ length (Embed.fields embed) = length entries
  /\ (forall k name value,
        entries !! k = Some (name, value) ->
        Embed.fields embed !! k = Some (Embed.mk_field name value true)).
Proof.
  unfold HelpPageSource.format_page. cbn zeta.
  set (e0 := Embed.set_description _ _).
  simpl Embed.title. simpl Embed.fields.
  pose proof (add_field_loop_rest (A := string * string) fst snd true entries e0) as (Ht & _).
  pose proof (add_field_loop_fields (A := string * string) fst snd true entries e0) as Hf.
  simpl in Ht, Hf. rewrite Ht, Hf. simpl.
  repeat split.
  - rewrite <- list_fmap_compose. rewrite <- (list_fmap_id entries) at 2.
    apply list_fmap_ext. by intros _ [a b] _.
  - by rewrite length_fmap.
  - intros k name value Hk. rewrite list_lookup_fmap, Hk. done.
Qed.

(** ** Rendering of numbers *)

Lemma int_of_str_of_int (n : Z) : Py.int_of_str (Py.str_of_int n) = Some n.
Proof.
  unfold Py.int_of_str, Py.str_of_int.
  rewrite NilZero.isi.
  - simpl. by rewrite DecimalZ.of_to.
  - destruct n; simpl; try discriminate.
    intros [= H]. by destruct (Pos.to_uint p) eqn:E; [apply (DecimalPos.Unsigned.to_uint_nonnil p)|..].
  - destruct n; simpl; try discriminate.
    intros [= H]. by apply (DecimalPos.Unsigned.to_uint_nonnil p).
Qed.

(** ** Pagination *)

Section pagination.
Variable help_command : HelpCommand.t.
Variable data : list (string * string).

Local Abbreviation src := (HelpPageSource.__init__ help_command data).
Local Abbreviation n := (Z.of_nat (length data)).

Lemma max_pages_bounds :
  2 * HelpPageSource.get_max_pages src - 2 < n <= 2 * HelpPageSource.get_max_pages src.
Proof.
  unfold HelpPageSource.get_max_pages, menus.ListPageSource.get_max_pages.
  simpl. unfold Py.truthy_int.
  pose proof (Z.div_mod n 2 ltac:(lia)) as Hdm.
  pose proof (Z.mod_pos_bound n 2 ltac:(lia)) as Hm.
  destruct (Z.eqb_spec (n mod 2) 0); simpl; lia.
Qed.

Lemma max_pages_ceiling :
  HelpPageSource.get_max_pages src = Qceiling (n # 2).
Proof.
  pose proof max_pages_bounds as Hb.
  unfold Qceiling, Qfloor. simpl Qopp. cbn [Qnum Qden Qopp].
  pose proof (Z.div_mod (- n) 2 ltac:(lia)) as Hdm.
  pose proof (Z.mod_pos_bound (- n) 2 ltac:(lia)) as Hm.
  lia.
Qed.

Lemma get_page_take_drop (k : nat) :
  menus.ListPageSource.get_page (HelpPageSource.base src) (Z.of_nat k)
  = take 2 (drop (2 * k) data).
Proof.
  unfold menus.ListPageSource.get_page, Py.slice. simpl.
  replace (Z.to_nat (Z.of_nat k * 2 + 2 - Z.of_nat k * 2)) with 2%nat by lia.
  replace (Z.to_nat (Z.of_nat k * 2)) with (2 * k)%nat by lia.
  done.
Qed.

Lemma pages_length :
  length (menus.ListPageSource.pages (HelpPageSource.base src))
  = Z.to_nat (HelpPageSource.get_max_pages src).
Proof.
  unfold menus.ListPageSource.pages. by rewrite length_fmap, length_seq.
Qed.

Lemma pages_lookup (k : nat) (page : list (string * string)) :
  menus.ListPageSource.pages (HelpPageSource.base src) !! k = Some page ->
  (Z.of_nat k < HelpPageSource.get_max_pages src)
  /\ page = take 2 (drop (2 * k) data).
Proof.
  intros Hk. pose proof (lookup_lt_Some _ _ _ Hk) as Hlt.
  rewrite pages_length in Hlt.
  unfold menus.ListPageSource.pages in Hk.
  rewrite list_lookup_fmap in Hk.
  rewrite lookup_seq_lt in Hk by (unfold HelpPageSource.get_max_pages in Hlt; lia).
  simpl in Hk. injection Hk as <-.
  split; [lia|]. apply get_page_take_drop.
Qed.

Lemma pages_concat :
  concat (menus.ListPageSource.pages (HelpPageSource.base src)) = data.
Proof.
  pose proof max_pages_bounds as Hb.
  unfold menus.ListPageSource.pages.
  change (menus.ListPageSource.get_max_pages (HelpPageSource.base src))
    with (HelpPageSource.get_max_pages src).
  assert (Hgen : forall m : nat,
    concat ((fun k => menus.ListPageSource.get_page (HelpPageSource.base src) (Z.of_nat k))
              <$> seq 0 m) = take (2 * m) data).
  { induction m as [|m IH]; [done|].
    rewrite seq_S, fmap_app, concat_app, IH.
    cbn [fmap list_fmap concat Nat.add].
    rewrite get_page_take_drop, app_nil_r.
    replace (2 * S m)%nat with (2 * m + 2)%nat by lia.
    apply take_take_drop. }
  rewrite Hgen. apply take_ge. lia.
Qed.
End pagination.

Lemma shows_in_range (data : list (string * string)) (help_command : HelpCommand.t)
    (k : Z) :
  data <> [] ->
  menus.ButtonMenuPages.shows
    (HelpPageSource.get_max_pages (HelpPageSource.__init__ help_command data)) k
  = true ->
  0 <= k < HelpPageSource.get_max_pages (HelpPageSource.__init__ help_command data).
Proof.
  intros Hne Hshows. pose proof (max_pages_bounds help_command data) as Hb.
  assert (0 < Z.of_nat (length data)) by (destruct data; [done|simpl; lia]).
  unfold menus.ButtonMenuPages.shows in Hshows.
  apply orb_true_iff in Hshows as [H0|Hin].
  - apply Z.eqb_eq in H0. lia.
  - apply andb_true_iff in Hin as [Hlo Hhi].
    apply Z.leb_le in Hlo. apply Z.ltb_lt in Hhi. lia.
Qed.

(** C5, as amended: [HelpPageSource] pages its list two entries at a time.
    For every list the number of pages is the ceiling of half its length,
    every page of the source but the last has exactly 2 entries, the last
    has 1 or 2, and the pages put end to end are the list.  For every list
    that is not empty, the page a menu hands to [format_page] is one of
    these pages, so it has 1 or 2 entries, and so has the embed fields. *)
Theorem help_page_source_pages (help_command : HelpCommand.t)
    (data : list (string * string)) :
  let src := HelpPageSource.__init__ help_command data in
  let pages := menus.ListPageSource.pages (HelpPageSource.base src) in
  menus.ListPageSource.per_page (HelpPageSource.base src) = 2
  /\ HelpPageSource.get_max_pages src = Qceiling (Z.of_nat (length data) # 2)
  /\ Z.of_nat (length pages) = HelpPageSource.get_max_pages src
  /\ (forall (k : nat) (page : list (string * string)),
        pages !! k = Some page ->
        ((S k < length pages)%nat -> length page = 2%nat)
        /\ (S k = length pages -> length page = 1%nat \/ length page = 2%nat))
  /\ concat pages = data
  /\ (data <> [] ->
      forall menu : HelpButtonMenuPages.t,
        menus.ButtonMenuPages.source (HelpButtonMenuPages.base menu) = src ->
        menus.ButtonMenuPages.shows (HelpPageSource.get_max_pages src)
          (menus.ButtonMenuPages.current_page (HelpButtonMenuPages.base menu))
        = true ->
        exists k : nat,
          menus.ButtonMenuPages.current_page (HelpButtonMenuPages.base menu)
          = Z.of_nat k
          /\ pages !! k = Some (HelpButtonMenuPages.current_entries menu)
          /\ (fun f => (Embed.name f, Embed.value f))
               <$> Embed.fields (HelpButtonMenuPages.show_current_page menu)
             = HelpButtonMenuPages.current_entries menu
          /\ (length (HelpButtonMenuPages.current_entries menu) = 1%nat
              \/ length (HelpButtonMenuPages.current_entries menu) = 2%nat)).
Proof.
  cbn zeta.
  pose proof (max_pages_bounds help_command data) as Hb.
  pose proof (pages_length help_command data) as Hlen.
  split; [done|]. split; [apply max_pages_ceiling|].
  split; [rewrite Hlen; lia|].
  split.
  { intros k page Hk. apply pages_lookup in Hk as [Hlt ->].
    rewrite Hlen, length_take, length_drop. lia. }
  split; [apply pages_concat|].
  intros Hne menu Hsrc Hshows.
  apply shows_in_range in Hshows; [|done].
  set (kz := menus.ButtonMenuPages.current_page (HelpButtonMenuPages.base menu)) in *.
  exists (Z.to_nat kz).
  assert (Hpage : menus.ListPageSource.pages
            (HelpPageSource.base (HelpPageSource.__init__ help_command data))
            !! Z.to_nat kz
          = Some (HelpButtonMenuPages.current_entries menu)).
  { unfold menus.ListPageSource.pages. rewrite list_lookup_fmap.
    rewrite lookup_seq_lt
      by (change (menus.ListPageSource.get_max_pages
                    (HelpPageSource.base (HelpPageSource.__init__ help_command data)))
            with (HelpPageSource.get_max_pages
                    (HelpPageSource.__init__ help_command data)); lia).
    simpl. unfold HelpButtonMenuPages.current_entries. rewrite Hsrc.
    fold kz. by rewrite Z2Nat.id by lia. }
  split; [lia|]. split; [exact Hpage|].
  split; [apply format_page_pairs|].
  apply pages_lookup in Hpage as [_ ->].
  rewrite length_take, length_drop. lia.
Qed.

(** C10, as amended: the footer of the embed of a page reads [Page k+1/N],
    with [k] the current page of the menu and [N] the number of pages of the
    source, and the numbers shown read back as [k+1] and [N].  When [k] is
    the index of a page of the source, and whenever the source has at least
    one page and [k] is a page number the menu can show, the number shown
    lies between 1 and [N]. *)
Theorem format_page_footer {S : Type} (self : HelpPageSource.t)
    (menu : menus.ButtonMenuPages.t S) (entries : list (string * string)) :
  let k := menus.ButtonMenuPages.current_page menu in
  let N := HelpPageSource.get_max_pages self in
  Embed.footer (HelpPageSource.format_page self menu entries)
  = Some ("Page " +:+ Py.str_of_int (k + 1) +:+ "/" +:+ Py.str_of_int N)
  /\ Py.int_of_str (Py.str_of_int (k + 1)) = Some (k + 1)
  /\ Py.int_of_str (Py.str_of_int N) = Some N
  /\ (forall i : nat,
        menus.ListPageSource.pages (HelpPageSource.base self) !! i = Some entries ->
        k = Z.of_nat i ->
        1 <= k + 1 <= N)
  /\ (1 <= N -> menus.ButtonMenuPages.shows N k = true -> 1 <= k + 1 <= N).
Proof.
  cbn zeta. split; [done|].
  split; [apply int_of_str_of_int|]. split; [apply int_of_str_of_int|].
  split.
  - intros i Hi ->. apply lookup_lt_Some in Hi.
    unfold menus.ListPageSource.pages in Hi. rewrite length_fmap, length_seq in Hi.
    unfold HelpPageSource.get_max_pages. lia.
  - intros HN Hshows. unfold menus.ButtonMenuPages.shows in Hshows.
    apply orb_true_iff in Hshows as [H0|Hin].
    + apply Z.eqb_eq in H0. lia.
    + apply andb_true_iff in Hin as [Hlo Hhi].
      apply Z.leb_le in Hlo. apply Z.ltb_lt in Hhi. lia.
Qed.

(** ** The help command *)

Lemma length_append (s1 s2 : string) :
  String.length (s1 +:+ s2) = (String.length s1 + String.length s2)%nat.
Proof. induction s1 as [|a s1 IH]; simpl; [done|]. by rewrite IH. Qed.

(** C9: [get_command_signature] returns the clean prefix of the context,
    the qualified name of the command, one space and the signature of the
    command, joined in this order with nothing else between them. *)
Theorem get_command_signature_format (self : PaginatedHelpCommand.t)
    (command : Command.t) :
  PaginatedHelpCommand.get_command_signature self command
  = Py.join EmptyString
      [ Context.clean_prefix (HelpCommand.context self);
        Command.qualified_name command;
        " ";
        Command.signature command ]
  /\ String.length (PaginatedHelpCommand.get_command_signature self command)
     = (String.length (Context.clean_prefix (HelpCommand.context self))
        + String.length (Command.qualified_name command)
        + 1
        + String.length (Command.signature command))%nat.
Proof.
  unfold PaginatedHelpCommand.get_command_signature, Py.join. simpl.
  split; [done|].
  rewrite !length_append. simpl. lia.
Qed.

(** C1: constructing a [PaginatedHelpCommand] raises exactly when
    [HAS_MENUS] is false, that is when the menus add-on cannot be imported;
    the exception is a [MissingDependencyError] made from the name of the
    class and the name of the missing distribution.  With the add-on the
    constructor hands the object to the base class and returns. *)
Theorem init_raises_iff_menus_missing (importable : bool)
    (super_init : PaginatedHelpCommand.t -> PaginatedHelpCommand.t)
    (self : PaginatedHelpCommand.t) :
  HelpCommand.class_name self = "PaginatedHelpCommand" ->
  let g := module_init importable in
  Globals.HAS_MENUS g = importable
  /\ ((exists e, PaginatedHelpCommand.__init__ g super_init self = inl e)
      <-> Globals.HAS_MENUS g = false)
  /\ (forall e,
        PaginatedHelpCommand.__init__ g super_init self = inl e ->
        e = MissingDependencyError "PaginatedHelpCommand" "nextcord-ext-menus" "menus")
  /\ (Globals.HAS_MENUS g = true ->
      PaginatedHelpCommand.__init__ g super_init self = inr (super_init self)).
Proof.
  intros Hcls g. unfold PaginatedHelpCommand.__init__.
  destruct importable; subst g; simpl; rewrite ?Hcls.
  - repeat split; try done. intros [e He]. discriminate.
  - repeat split; try done.
    + by eexists.
    + by intros e [= <-].
Qed.

Lemma init_raises_iff_menus_missing_witness :
  HelpCommand.class_name Sample.help = "PaginatedHelpCommand"
  /\ PaginatedHelpCommand.__init__ (module_init false) (fun self => self) Sample.help
     = inl (MissingDependencyError "PaginatedHelpCommand" "nextcord-ext-menus" "menus")
  /\ PaginatedHelpCommand.__init__ (module_init true) (fun self => self) Sample.help
     = inr Sample.help.
Proof.
  split; [reflexivity|]. split.
  - destruct (init_raises_iff_menus_missing false (fun self => self) Sample.help eq_refl)
      as (_ & _ & H & _).
    destruct (PaginatedHelpCommand.__init__ (module_init false) (fun self => self) Sample.help)
      as [e|s] eqn:E.
    + f_equal. apply H. reflexivity.
    + discriminate E.
  - destruct (init_raises_iff_menus_missing true (fun self => self) Sample.help eq_refl)
      as (_ & _ & _ & H).
    apply H. reflexivity.
Defined.

(** The only effect of [send_bot_help] is to start one menu, made from the
    context of the help command and the page source of the field list. *)
Lemma send_bot_help_run (self : PaginatedHelpCommand.t)
    (mapping : list (option Cog.t * list Command.t)) :
  run (PaginatedHelpCommand.send_bot_help self mapping)
  = [ Start
        (HelpButtonMenuPages.__init__ (HelpCommand.context self)
           (HelpPageSource.__init__ self
              (PaginatedHelpCommand.bot_help_fields self mapping))
           true)
        (HelpCommand.context self) ].
Proof. reflexivity. Qed.

Lemma user_eq_true (a : User.t) (other : option User.t) :
  User.eq a other = true <-> other = Some a.
Proof.
  unfold User.eq. destruct other as [b|]; [|done].
  rewrite Z.eqb_eq. destruct a as [x], b as [y]; simpl.
  split; [by intros ->|by intros [= ->]].
Qed.

(** C2: [interaction_check] of a menu answers true exactly for an
    interaction whose user is the author of the context the menu was made
    with, and false for every other user; the menu that [send_bot_help]
    starts was made with the context that invoked the help command. *)
Theorem interaction_check_only_author (interaction : Interaction.t) :
  (forall (ctx : Context.t) (source : HelpPageSource.t) (disable_buttons_after : bool),
     let menu := HelpButtonMenuPages.__init__ ctx source disable_buttons_after in
     (HelpButtonMenuPages.interaction_check menu interaction = true
      <-> Interaction.user interaction = Some (Context.author ctx))
     /\ (Interaction.user interaction <> Some (Context.author ctx) ->
         HelpButtonMenuPages.interaction_check menu interaction = false))
  /\ (forall (self : PaginatedHelpCommand.t)
        (mapping : list (option Cog.t * list Command.t))
        (pages : HelpButtonMenuPages.t) (ctx : Context.t),
        In (Start pages ctx) (run (PaginatedHelpCommand.send_bot_help self mapping)) ->
        (HelpButtonMenuPages.interaction_check pages interaction = true
         <-> Interaction.user interaction
            = Some (Context.author (HelpCommand.context self)))).
Proof.
  assert (Hgen : forall menu : HelpButtonMenuPages.t,
    HelpButtonMenuPages.interaction_check menu interaction = true
    <-> Interaction.user interaction
        = Some (Context.author (HelpButtonMenuPages._ctx menu))).
  { intros menu. unfold HelpButtonMenuPages.interaction_check.
    apply user_eq_true. }
  split.
  - intros ctx source dba menu. split; [apply Hgen|].
    intros Hne. apply not_true_is_false. intros Ht. by apply Hgen in Ht.
  - intros self mapping pages ctx Hin. rewrite send_bot_help_run in Hin.
    destruct Hin as [[= <- _]|[]]. apply Hgen.
Qed.

Lemma truthy_eqb (s : string) : Py.truthy s = negb (String.eqb s EmptyString).
Proof. by destruct s. Qed.

Lemma bot_help_step_spec (self : PaginatedHelpCommand.t)
    (acc : list (string * string)) (item : option Cog.t * list Command.t) :
  PaginatedHelpCommand.bot_help_step self
    (Context.clean_prefix (HelpCommand.context self)) acc item
  = (acc ++ Spec.bot_help_fields self [item])%list.
Proof.
  destruct item as [cog commands].
  unfold PaginatedHelpCommand.bot_help_step, Spec.bot_help_fields, Spec.has_commands.
  simpl. destruct (HelpCommand.filter_commands self commands true) as [|c filtered] eqn:E.
  - simpl. by rewrite app_nil_r.
  - simpl. rewrite E. do 2 f_equal.
    unfold Spec.field_name, Spec.field_value, Spec.command_names.
    destruct cog as [c'|]; simpl; [|done].
    rewrite truthy_eqb. by destruct (String.eqb (Cog.description c') EmptyString).
Qed.

Lemma spec_bot_help_fields_app (self : HelpCommand.t)
    (m1 m2 : list (option Cog.t * list Command.t)) :
  Spec.bot_help_fields self (m1 ++ m2)
  = (Spec.bot_help_fields self m1 ++ Spec.bot_help_fields self m2)%list.
Proof.
  unfold Spec.bot_help_fields. cbn zeta.
  by rewrite List.filter_app, fmap_app.
Qed.

Lemma bot_help_loop_spec (self : PaginatedHelpCommand.t)
    (mapping : list (option Cog.t * list Command.t)) (acc : list (string * string)) :
  fold_left
    (PaginatedHelpCommand.bot_help_step self
       (Context.clean_prefix (HelpCommand.context self)))
    mapping acc
  = (acc ++ Spec.bot_help_fields self mapping)%list.
Proof.
  revert acc. induction mapping as [|item mapping IH]; intros acc.
  - simpl. by rewrite app_nil_r.
  - simpl fold_left. rewrite IH, bot_help_step_spec, <- app_assoc.
    f_equal. symmetry. apply (spec_bot_help_fields_app self [item] mapping).
Qed.

(** C3: the field list that [send_bot_help] builds, and pages, is the one
    the specification describes: in the order of the mapping, one pair per
    cog whose filtered command list is not empty, with the name and the
    value of [Spec.field_name] and [Spec.field_value]; a cog whose filtered
    list is empty adds nothing. *)
Theorem send_bot_help_fields (self : PaginatedHelpCommand.t)
    (mapping : list (option Cog.t * list Command.t)) :
  PaginatedHelpCommand.bot_help_fields self mapping = Spec.bot_help_fields self mapping
  /\ (exists pages : HelpButtonMenuPages.t,
        run (PaginatedHelpCommand.send_bot_help self mapping)
        = [Start pages (HelpCommand.context self)]
        /\ menus.ListPageSource.entries
             (HelpPageSource.base
                (menus.ButtonMenuPages.source (HelpButtonMenuPages.base pages)))
           = Spec.bot_help_fields self mapping)
  /\ (forall (cog : option Cog.t) (commands : list Command.t),
        HelpCommand.filter_commands self commands true = [] ->
        forall before after : list (option Cog.t * list Command.t),
          PaginatedHelpCommand.bot_help_fields self (before ++ (cog, commands) :: after)
          = PaginatedHelpCommand.bot_help_fields self (before ++ after)).
Proof.
  assert (Heq : forall m,
    PaginatedHelpCommand.bot_help_fields self m = Spec.bot_help_fields self m).
  { intros m. unfold PaginatedHelpCommand.bot_help_fields. cbn zeta.
    by rewrite bot_help_loop_spec. }
  split; [apply Heq|]. split.
  - eexists. rewrite send_bot_help_run. split; [reflexivity|].
    simpl. apply Heq.
  - intros cog commands Hnil before after.
    rewrite !Heq, !spec_bot_help_fields_app. f_equal.
    change ((cog, commands) :: after) with ([(cog, commands)] ++ after)%list.
    rewrite spec_bot_help_fields_app.
    unfold Spec.bot_help_fields at 1. unfold Spec.has_commands. simpl.
    by rewrite Hnil.
Qed.

(** The sample bot: the cog without visible commands is skipped, the names
    are sorted, and only a cog with a description gets it in front. *)
Example send_bot_help_sample :
  PaginatedHelpCommand.bot_help_fields Sample.help Sample.mapping
  = [ ("Fun", "Games and toys" +:+ Py.newline
              +:+ "`!echo`" +:+ Py.en_space +:+ "`!ping`");
      ("Moderation", "`!mod`");
      ("No Category", "`!ban`" +:+ Py.en_space +:+ "`!kick`") ].
Proof. vm_compute. reflexivity. Qed.

(** The fields of [add_command_fields]: one per command, after those the
    embed already had. *)
Lemma add_command_fields_fields (self : PaginatedHelpCommand.t)
    (filtered : list Command.t) (embed : Embed.t) :
  Embed.fields (PaginatedHelpCommand.add_command_fields self filtered embed)
  = (Embed.fields embed
     ++ ((fun c =>
            Embed.mk_field (PaginatedHelpCommand.get_command_signature self c)
              (Py.or_ (Command.short_doc c) "...") false) <$> filtered))%list.
Proof.
  apply (add_field_loop_fields
           (PaginatedHelpCommand.get_command_signature self)
           (fun c => Py.or_ (Command.short_doc c) "...") false).
Qed.

Lemma add_command_fields_rest (self : PaginatedHelpCommand.t)
    (filtered : list Command.t) (embed : Embed.t) :
  Embed.title (PaginatedHelpCommand.add_command_fields self filtered embed)
  = Embed.title embed
  /\ Embed.colour (PaginatedHelpCommand.add_command_fields self filtered embed)
     = Embed.colour embed
  /\ Embed.description (PaginatedHelpCommand.add_command_fields self filtered embed)
     = Embed.description embed
  /\ Embed.footer (PaginatedHelpCommand.add_command_fields self filtered embed)
     = Embed.footer embed.
Proof.
  apply (add_field_loop_rest
           (PaginatedHelpCommand.get_command_signature self)
           (fun c => Py.or_ (Command.short_doc c) "...") false).
Qed.

Lemma or_placeholder (doc : option string) :
  (doc = None \/ doc = Some EmptyString -> Py.or_ doc "..." = "...")
  /\ (forall s, doc = Some s -> s <> EmptyString -> Py.or_ doc "..." = s).
Proof.
  split.
  - by intros [-> | ->].
  - intros s -> Hs. by destruct s.
Qed.

(** C4: the embed that [send_cog_help] sends, and the one [send_group_help]
    sends for a group, has one field per listed command, in order; the
    value of the field is [...] when the short documentation of the command
    is missing or empty, and the short documentation itself otherwise. *)
Theorem help_field_values (self : PaginatedHelpCommand.t) :
  (forall cog : Cog.t,
     exists embed : Embed.t,
       run (PaginatedHelpCommand.send_cog_help self cog)
       = [Send (HelpCommand.get_destination self) embed]
       /\ Embed.value <$> Embed.fields embed
          = (fun c => Py.or_ (Command.short_doc c) "...")
              <$> HelpCommand.filter_commands self (Cog.get_commands cog) true)
  /\ (forall (group : Command.t) (commands : list Command.t),
        Command.commands group = Some commands ->
        exists embed : Embed.t,
          run (PaginatedHelpCommand.send_group_help self group)
          = [Send (HelpCommand.get_destination self) embed]
          /\ Embed.value <$> Embed.fields embed
             = (fun c => Py.or_ (Command.short_doc c) "...")
                 <$> HelpCommand.filter_commands self commands true)
  /\ (forall c : Command.t,
        Command.short_doc c = None \/ Command.short_doc c = Some EmptyString ->
        Py.or_ (Command.short_doc c) "..." = "...")
  /\ (forall (c : Command.t) (s : string),
        Command.short_doc c = Some s -> s <> EmptyString ->
        Py.or_ (Command.short_doc c) "..." = s).
Proof.
  repeat split.
  - intros cog. eexists. split; [reflexivity|].
    simpl Embed.fields. rewrite add_command_fields_fields.
    destruct (Py.truthy (Cog.description cog)); simpl;
      by rewrite <- list_fmap_compose.
  - intros group commands Hg. eexists. split; [reflexivity|].
    rewrite Hg, add_command_fields_fields.
    destruct (Command.help group) as [h|]; [destruct (Py.truthy h)|]; simpl;
      by rewrite <- list_fmap_compose.
  - intros c. apply or_placeholder.
  - intros c s. apply or_placeholder.
Qed.

Example send_cog_help_sample :
  run (PaginatedHelpCommand.send_cog_help Sample.help Sample.fun_cog)
  = [ Send 77
        {| Embed.title := Some "Fun Commands";
           Embed.colour := Some 5793266;
           Embed.description := Some "Games and toys";
           Embed.fields :=
             [ Embed.mk_field "!echo <text>" "..." false;
               Embed.mk_field "!ping " "Replies with pong." false ];
           Embed.footer := Some "Use !help [command] for more info on a command." |} ].
Proof. vm_compute. reflexivity. Qed.

Example send_group_help_sample :
  run (PaginatedHelpCommand.send_group_help Sample.help Sample.mod_group)
  = [ Send 77
        {| Embed.title := Some "mod";
           Embed.colour := Some 5793266;
           Embed.description := Some "Moderation.";
           Embed.fields :=
             [ Embed.mk_field "!mod ban <member> [reason]" "..." false;
               Embed.mk_field "!mod kick <member>" "Kicks a member." false ];
           Embed.footer := None |} ].
Proof. vm_compute. reflexivity. Qed.

(** ** The class *)

(** The class body runs to its end and binds these names. *)
Lemma namespace_lookup (blurple : Colour) :
  exists ns : gmap string ClassBody.value,
    ClassBody.namespace blurple = Some ns
    /\ ns !! "COLOUR" = Some (ClassBody.Constant blurple)
    /\ ns !! "__init__" = Some (ClassBody.Function ClassBody.def___init__)
    /\ ns !! "get_command_signature"
       = Some (ClassBody.Function ClassBody.def_get_command_signature)
    /\ ns !! "send_bot_help" = Some (ClassBody.Function ClassBody.def_send_bot_help)
    /\ ns !! "send_cog_help" = Some (ClassBody.Function ClassBody.def_send_cog_help)
    /\ ns !! "send_group_help" = Some (ClassBody.Function ClassBody.def_send_group_help)
    /\ ns !! "send_command_help" = Some (ClassBody.Function ClassBody.def_send_group_help).
Proof.
  eexists. split.
  - unfold ClassBody.namespace, ClassBody.body. simpl.
    rewrite lookup_insert_eq. reflexivity.
  - repeat split;
      repeat (first [ rewrite lookup_insert_eq; reflexivity
                    | rewrite lookup_insert_ne by discriminate ]).
Qed.

(** C7: the class has the five methods the help-command extension point of
    the framework asks for: each of the five names is bound in the
    namespace of the class, to a function, which is callable. *)
Theorem class_provides_help_methods (blurple : Colour) :
  exists ns : gmap string ClassBody.value,
    ClassBody.namespace blurple = Some ns
    /\ Forall
         (fun name =>
            exists f : ClassBody.function,
              ns !! name = Some (ClassBody.Function f)
              /\ ClassBody.callable (ClassBody.Function f) = true)
         [ "send_bot_help"; "send_cog_help"; "send_group_help";
           "send_command_help"; "get_command_signature" ].
Proof.
  destruct (namespace_lookup blurple) as (ns & Hns & _ & _ & Hsig & Hbot & Hcog & Hgrp & Hcmd).
  exists ns. split; [done|].
  repeat constructor; eexists; (split; [eassumption|reflexivity]).
Qed.

(** C8: [send_command_help] is [send_group_help] under a second name: the
    class binds both names to the same function object, so calling either
    runs the same coroutine on every input.  For a command that is not a
    group the loop over subcommands is not entered: the embed sent has the
    qualified name as title, the help text as description when there is
    one, and no field. *)
Theorem send_command_help_alias (blurple : Colour) (self : PaginatedHelpCommand.t)
    (command : Command.t) :
  ClassBody.call blurple "send_command_help" self command
  = ClassBody.call blurple "send_group_help" self command
  /\ ClassBody.call blurple "send_command_help" self command
     = Some (PaginatedHelpCommand.send_group_help self command)
  /\ PaginatedHelpCommand.send_command_help self command
     = PaginatedHelpCommand.send_group_help self command
  /\ (Command.is_group command = false ->
      exists embed : Embed.t,
        run (PaginatedHelpCommand.send_command_help self command)
        = [Send (HelpCommand.get_destination self) embed]
        /\ Embed.title embed = Some (Command.qualified_name command)
        /\ Embed.colour embed = Some (HelpCommand.COLOUR self)
        /\ Embed.fields embed = []
        /\ Embed.footer embed = None
        /\ (forall h : string,
              Command.help command = Some h -> h <> EmptyString ->
              Embed.description embed = Some h)
        /\ (Command.help command = None \/ Command.help command = Some EmptyString ->
            Embed.description embed = None)).
Proof.
  destruct (namespace_lookup blurple) as (ns & Hns & _ & _ & _ & _ & _ & Hgrp & Hcmd).
  unfold ClassBody.call. rewrite Hns, Hgrp, Hcmd. simpl.
  do 3 (split; [reflexivity|]).
  unfold Command.is_group. intros Hplain.
  unfold PaginatedHelpCommand.send_command_help, PaginatedHelpCommand.send_group_help.
  destruct (Command.commands command) as [subcommands|]; [discriminate|].
  eexists. split; [reflexivity|].
  destruct (Command.help command) as [[|a h]|]; simpl;
    do 4 (split; [reflexivity|]); split.
  - by intros h' [= <-] Hne.
  - done.
  - by intros h' [= <-] _.
  - by intros [|].
  - done.
  - done.
Qed.

Example send_command_help_sample :
  Command.is_group Sample.ping = false
  /\ run (PaginatedHelpCommand.send_command_help Sample.help Sample.ping)
     = [ Send 77
           {| Embed.title := Some "ping";
              Embed.colour := Some 5793266;
              Embed.description := Some "Replies with pong.";
              Embed.fields := [];
              Embed.footer := None |} ].
Proof. split; vm_compute; reflexivity. Qed.

(** ** The properties on the sample bot *)

Lemma format_page_fields_witness :
  Sample.entries !! 2%nat = Some ("No Category", "`!ban`")
  /\ Embed.fields (HelpPageSource.format_page Sample.source Sample.menu Sample.entries)
       !! 2%nat
     = Some (Embed.mk_field "No Category" "`!ban`" true).
Proof.
  split; [reflexivity|].
  destruct (format_page_fields Sample.source Sample.menu Sample.entries)
    as (_ & _ & _ & H).
  apply H. reflexivity.
Defined.

Lemma help_page_source_pages_witness :
  menus.ListPageSource.pages (HelpPageSource.base Sample.source)
  = [ [("Fun", "`!echo`"); ("Moderation", "`!mod`")]; [("No Category", "`!ban`")] ]
  /\ length [("Fun", "`!echo`"); ("Moderation", "`!mod`")] = 2%nat
  /\ (length [("No Category", "`!ban`")] = 1%nat
      \/ length [("No Category", "`!ban`")] = 2%nat)
  /\ Sample.entries <> []
  /\ menus.ButtonMenuPages.shows (HelpPageSource.get_max_pages Sample.source)
       (menus.ButtonMenuPages.current_page
          (HelpButtonMenuPages.base Sample.help_menu))
     = true
  /\ (exists k : nat,
        menus.ListPageSource.pages (HelpPageSource.base Sample.source) !! k
        = Some (HelpButtonMenuPages.current_entries Sample.help_menu)
        /\ (length (HelpButtonMenuPages.current_entries Sample.help_menu) = 1%nat
            \/ length (HelpButtonMenuPages.current_entries Sample.help_menu) = 2%nat)).
Proof.
  destruct (help_page_source_pages Sample.help Sample.entries)
    as (_ & _ & _ & H & _ & Hmenu).
  split; [reflexivity|]. split.
  { apply (H 0%nat); [reflexivity | vm_compute; lia]. }
  split.
  { apply (H 1%nat); reflexivity. }
  split; [discriminate|]. split; [reflexivity|].
  destruct (Hmenu ltac:(discriminate) Sample.help_menu eq_refl eq_refl)
    as (k & _ & Hpage & _ & Hlen).
  exists k. split; [exact Hpage|exact Hlen].
Defined.

(** The empty list: the started menu shows page 0, which has no entry, so
    the page handed to [format_page] has neither 2 entries nor 1. *)
Lemma help_page_source_pages_counterexample :
  menus.ListPageSource.entries
    (HelpPageSource.base
       (menus.ButtonMenuPages.source (HelpButtonMenuPages.base Sample.empty_menu)))
  = []
  /\ menus.ButtonMenuPages.shows
       (HelpPageSource.get_max_pages
          (menus.ButtonMenuPages.source (HelpButtonMenuPages.base Sample.empty_menu)))
       (menus.ButtonMenuPages.current_page (HelpButtonMenuPages.base Sample.empty_menu))
     = true
  /\ HelpButtonMenuPages.current_entries Sample.empty_menu = []
  /\ Embed.fields (HelpButtonMenuPages.show_current_page Sample.empty_menu) = []
  /\ ~ (length (HelpButtonMenuPages.current_entries Sample.empty_menu) = 2%nat
        \/ length (HelpButtonMenuPages.current_entries Sample.empty_menu) = 1%nat).
Proof.
  split; [reflexivity|]. split; [reflexivity|]. split; [reflexivity|].
  split; [reflexivity|]. intros [H|H]; discriminate H.
Qed.

Lemma format_page_footer_witness :
  menus.ListPageSource.pages (HelpPageSource.base Sample.source) !! 1%nat
  = Some [("No Category", "`!ban`")]
  /\ Embed.footer
       (HelpPageSource.format_page Sample.source Sample.menu [("No Category", "`!ban`")])
     = Some "Page 2/2"
  /\ 1 <= HelpPageSource.get_max_pages Sample.source
  /\ menus.ButtonMenuPages.shows (HelpPageSource.get_max_pages Sample.source)
       (menus.ButtonMenuPages.current_page Sample.menu)
     = true
  /\ 1 <= menus.ButtonMenuPages.current_page Sample.menu + 1
       <= HelpPageSource.get_max_pages Sample.source.
Proof.
  destruct (format_page_footer Sample.source Sample.menu [("No Category", "`!ban`")])
    as (Hfooter & _ & _ & Hpage & Hshows).
  split; [reflexivity|]. split.
  { rewrite Hfooter. reflexivity. }
  split; [vm_compute; discriminate|]. split; [reflexivity|].
  apply Hshows; [vm_compute; discriminate|reflexivity].
Defined.

(** [Sample.empty_menu] is the menu that [send_bot_help] starts when no
    command of the mapping passes the filter. *)
Example send_bot_help_empty_sample :
  run (PaginatedHelpCommand.send_bot_help Sample.help
         [(Some Sample.empty_cog, [Sample.secret])])
  = [Start Sample.empty_menu Sample.ctx].
Proof. reflexivity. Qed.

(** The menu over a source without entries: it shows page 0 of 0 pages, and
    its footer reads [Page 1/0]. *)
Lemma format_page_footer_counterexample :
  menus.ButtonMenuPages.shows
    (HelpPageSource.get_max_pages
       (menus.ButtonMenuPages.source (HelpButtonMenuPages.base Sample.empty_menu)))
    (menus.ButtonMenuPages.current_page (HelpButtonMenuPages.base Sample.empty_menu))
  = true
  /\ Embed.footer (HelpButtonMenuPages.show_current_page Sample.empty_menu)
     = Some "Page 1/0"
  /\ ~ (1 <= menus.ButtonMenuPages.current_page
               (HelpButtonMenuPages.base Sample.empty_menu) + 1
          <= HelpPageSource.get_max_pages
               (menus.ButtonMenuPages.source
                  (HelpButtonMenuPages.base Sample.empty_menu))).
Proof.
  split; [reflexivity|]. split; [reflexivity|].
  vm_compute. intros [_ H]. apply H. reflexivity.
Qed.

Lemma interaction_check_only_author_witness :
  In (Start
        (HelpButtonMenuPages.__init__ Sample.ctx
           (HelpPageSource.__init__ Sample.help
              (PaginatedHelpCommand.bot_help_fields Sample.help Sample.mapping))
           true)
        Sample.ctx)
     (run (PaginatedHelpCommand.send_bot_help Sample.help Sample.mapping))
  /\ HelpButtonMenuPages.interaction_check
       (HelpButtonMenuPages.__init__ Sample.ctx
          (HelpPageSource.__init__ Sample.help
             (PaginatedHelpCommand.bot_help_fields Sample.help Sample.mapping))
          true)
       (Interaction.mk (Some Sample.alice))
     = true
  /\ HelpButtonMenuPages.interaction_check
       (HelpButtonMenuPages.__init__ Sample.ctx Sample.source true)
       (Interaction.mk (Some Sample.bob))
     = false.
Proof.
  assert (Hin : In (Start
        (HelpButtonMenuPages.__init__ Sample.ctx
           (HelpPageSource.__init__ Sample.help
              (PaginatedHelpCommand.bot_help_fields Sample.help Sample.mapping))
           true)
        Sample.ctx)
     (run (PaginatedHelpCommand.send_bot_help Sample.help Sample.mapping))).
  { left. reflexivity. }
  split; [exact Hin|]. split.
  - destruct (interaction_check_only_author (Interaction.mk (Some Sample.alice))) as (_ & H).
    apply (H Sample.help Sample.mapping _ _ Hin). reflexivity.
  - destruct (interaction_check_only_author (Interaction.mk (Some Sample.bob))) as (H & _).
    apply (H Sample.ctx Sample.source true). discriminate.
Defined.

Lemma send_bot_help_fields_witness :
  HelpCommand.filter_commands Sample.help [Sample.secret] true = []
  /\ PaginatedHelpCommand.bot_help_fields Sample.help
       ([(Some Sample.fun_cog, [Sample.ping; Sample.echo])]
        ++ (Some Sample.empty_cog, [Sample.secret])
           :: [(Some Sample.mod_cog, [Sample.mod_group]);
               (None, [Sample.kick; Sample.ban])])%list
     = PaginatedHelpCommand.bot_help_fields Sample.help
         ([(Some Sample.fun_cog, [Sample.ping; Sample.echo])]
          ++ [(Some Sample.mod_cog, [Sample.mod_group]);
              (None, [Sample.kick; Sample.ban])])%list.
Proof.
  destruct (send_bot_help_fields Sample.help Sample.mapping) as (_ & _ & H).
  split; [reflexivity|].
  apply (H (Some Sample.empty_cog) [Sample.secret]). reflexivity.
Defined.

Lemma help_field_values_witness :
  Command.short_doc Sample.ban = None
  /\ Py.or_ (Command.short_doc Sample.ban) "..." = "..."
  /\ Command.short_doc Sample.echo = Some EmptyString
  /\ Py.or_ (Command.short_doc Sample.echo) "..." = "..."
  /\ Command.short_doc Sample.kick = Some "Kicks a member."
  /\ Py.or_ (Command.short_doc Sample.kick) "..." = "Kicks a member."
  /\ Command.commands Sample.mod_group = Some [Sample.kick; Sample.ban]
  /\ (exists embed : Embed.t,
        run (PaginatedHelpCommand.send_group_help Sample.help Sample.mod_group)
        = [Send (HelpCommand.get_destination Sample.help) embed]
        /\ Embed.value <$> Embed.fields embed
           = (fun c => Py.or_ (Command.short_doc c) "...")
               <$> HelpCommand.filter_commands Sample.help [Sample.kick; Sample.ban] true).
Proof.
  destruct (help_field_values Sample.help) as (_ & Hgroup & Hmissing & Hdoc).
  split; [reflexivity|]. split; [apply Hmissing; left; reflexivity|].
  split; [reflexivity|]. split; [apply Hmissing; right; reflexivity|].
  split; [reflexivity|]. split; [apply Hdoc; [reflexivity|discriminate]|].
  split; [reflexivity|]. apply Hgroup. reflexivity.
Defined.

Lemma send_command_help_alias_witness :
  Command.is_group Sample.ping = false
  /\ Command.help Sample.ping = Some "Replies with pong."
  /\ (exists embed : Embed.t,
        run (PaginatedHelpCommand.send_command_help Sample.help Sample.ping)
        = [Send (HelpCommand.get_destination Sample.help) embed]
        /\ Embed.title embed = Some "ping"
        /\ Embed.fields embed = []
        /\ Embed.description embed = Some "Replies with pong.").
Proof.
  destruct (send_command_help_alias 5793266 Sample.help Sample.ping) as (_ & _ & _ & H).
  split; [reflexivity|]. split; [reflexivity|].
  destruct (H eq_refl) as (embed & Hrun & Htitle & _ & Hfields & _ & Hdesc & _).
  exists embed. split; [exact Hrun|]. split; [exact Htitle|]. split; [exact Hfields|].
  apply Hdesc; [reflexivity|discriminate].
Defined.

(** * Further properties of the code *)

(** ** Strings that are never empty *)

Lemma append_nonempty_r (s1 s2 : string) :
  s2 <> EmptyString -> s1 +:+ s2 <> EmptyString.
Proof. intros Hne. destruct s1; simpl; [done|discriminate]. Qed.

Lemma append_nonempty_l (s1 s2 : string) :
  s1 <> EmptyString -> s1 +:+ s2 <> EmptyString.
Proof. intros Hne. destruct s1; simpl; [done|discriminate]. Qed.

Lemma or_nonempty (doc : option string) (placeholder : string) :
  placeholder <> EmptyString -> Py.or_ doc placeholder <> EmptyString.
Proof.
  intros Hne. destruct doc as [[|a s]|]; simpl; try done.
Qed.

Lemma get_command_signature_nonempty (self : PaginatedHelpCommand.t) (c : Command.t) :
  PaginatedHelpCommand.get_command_signature self c <> EmptyString.
Proof.
  unfold PaginatedHelpCommand.get_command_signature.
  do 2 apply append_nonempty_r. discriminate.
Qed.

Lemma command_fields_wellformed (self : PaginatedHelpCommand.t)
    (filtered : list Command.t) :
  Forall
    (fun f =>
       Embed.name f <> EmptyString /\ Embed.value f <> EmptyString
       /\ Embed.inline f = false)
    ((fun c =>
        Embed.mk_field (PaginatedHelpCommand.get_command_signature self c)
          (Py.or_ (Command.short_doc c) "...") false) <$> filtered).
Proof.
  apply Forall_fmap, Forall_forall. intros c _. simpl.
  split; [apply get_command_signature_nonempty|].
  split; [by apply or_nonempty|done].
Qed.

(** X1: no field of a cog help or a group help page has an empty name or an
    empty value, whatever the commands are: the name holds at least the
    space of the signature line and the value falls back to the
    placeholder.  There is one field per listed command and none of them
    is inline. *)
Theorem help_fields_never_empty (self : PaginatedHelpCommand.t) :
  (forall cog : Cog.t,
     exists embed : Embed.t,
       run (PaginatedHelpCommand.send_cog_help self cog)
       = [Send (HelpCommand.get_destination self) embed]
       /\ length (Embed.fields embed)
          = length (HelpCommand.filter_commands self (Cog.get_commands cog) true)
       /\ Forall
            (fun f =>
               Embed.name f <> EmptyString /\ Embed.value f <> EmptyString
               /\ Embed.inline f = false)
            (Embed.fields embed))
  /\ (forall group : Command.t,
        exists embed : Embed.t,
          run (PaginatedHelpCommand.send_group_help self group)
          = [Send (HelpCommand.get_destination self) embed]
          /\ length (Embed.fields embed)
             = match Command.commands group with
               | Some commands =>
                   length (HelpCommand.filter_commands self commands true)
               | None => 0%nat
               end
          /\ Forall
               (fun f =>
                  Embed.name f <> EmptyString /\ Embed.value f <> EmptyString
                  /\ Embed.inline f = false)
               (Embed.fields embed)).
Proof.
  split.
  - intros cog. eexists. split; [reflexivity|].
    simpl Embed.fields. rewrite add_command_fields_fields.
    assert (Hnil : Embed.fields
              (if Py.truthy (Cog.description cog)
               then Embed.set_description
                      (Embed.new (Cog.qualified_name cog +:+ " Commands")
                         (HelpCommand.COLOUR self)) (Cog.description cog)
               else Embed.new (Cog.qualified_name cog +:+ " Commands")
                      (HelpCommand.COLOUR self)) = [])
      by (by destruct (Py.truthy (Cog.description cog))).
    rewrite Hnil. simpl. split; [by rewrite length_fmap|].
    apply command_fields_wellformed.
  - intros group. eexists. split; [reflexivity|].
    set (e0 := match Command.help group with
               | Some h => _
               | None => _
               end).
    assert (Hnil : Embed.fields e0 = [])
      by (subst e0; destruct (Command.help group) as [h|];
          [by destruct (Py.truthy h)|done]).
    destruct (Command.commands group) as [commands|].
    + rewrite add_command_fields_fields, Hnil. simpl.
      split; [by rewrite length_fmap|]. apply command_fields_wellformed.
    + rewrite Hnil. split; [done|constructor].
Qed.

(** ** The page of a cog and the page of a group *)

(** X2: the page of a cog is one embed, sent to the destination of the
    help command: its title is the qualified name of the cog followed by
    [ Commands], its colour the colour of the class, its footer the hint
    with the clean prefix and the literal command name [help], and the
    names of its fields are the signature lines of the filtered commands,
    in order.  The description is the one of the cog, and is left unset
    when the cog has an empty description. *)
Theorem send_cog_help_embed (self : PaginatedHelpCommand.t) (cog : Cog.t) :
  exists embed : Embed.t,
    run (PaginatedHelpCommand.send_cog_help self cog)
    = [Send (HelpCommand.get_destination self) embed]
    /\ Embed.title embed = Some (Cog.qualified_name cog +:+ " Commands")
    /\ Embed.colour embed = Some (HelpCommand.COLOUR self)
    /\ Embed.footer embed
       = Some ("Use " +:+ Context.clean_prefix (HelpCommand.context self)
                 +:+ "help [command] for more info on a command.")
    /\ Embed.name <$> Embed.fields embed
       = PaginatedHelpCommand.get_command_signature self
           <$> HelpCommand.filter_commands self (Cog.get_commands cog) true
    /\ (Cog.description cog = EmptyString -> Embed.description embed = None)
    /\ (Cog.description cog <> EmptyString ->
        Embed.description embed = Some (Cog.description cog)).
Proof.
  eexists. split; [reflexivity|].
  simpl Embed.title. simpl Embed.colour. simpl Embed.footer.
  simpl Embed.fields. simpl Embed.description.
  set (filtered := HelpCommand.filter_commands self (Cog.get_commands cog) true).
  set (e0 := if Py.truthy (Cog.description cog) then _ else _).
  destruct (add_command_fields_rest self filtered e0) as (-> & -> & -> & _).
  rewrite add_command_fields_fields.
  assert (He0 : Embed.title e0 = Some (Cog.qualified_name cog +:+ " Commands")
                /\ Embed.colour e0 = Some (HelpCommand.COLOUR self)
                /\ Embed.fields e0 = [])
    by (subst e0; by destruct (Py.truthy (Cog.description cog))).
  destruct He0 as (-> & -> & ->).
  do 3 (split; [reflexivity|]).
  split; [simpl; by rewrite <- list_fmap_compose|].
  subst e0. split.
  - by intros ->.
  - intros Hne. by destruct (Cog.description cog).
Qed.

Lemma send_cog_help_embed_witness :
  Cog.description Sample.mod_cog = EmptyString
  /\ Cog.description Sample.fun_cog <> EmptyString
  /\ (exists embed : Embed.t,
        run (PaginatedHelpCommand.send_cog_help Sample.help Sample.mod_cog)
        = [Send 77 embed]
        /\ Embed.title embed = Some "Moderation Commands"
        /\ Embed.description embed = None)
  /\ (exists embed : Embed.t,
        run (PaginatedHelpCommand.send_cog_help Sample.help Sample.fun_cog)
        = [Send 77 embed]
        /\ Embed.description embed = Some "Games and toys").
Proof.
  split; [reflexivity|]. split; [discriminate|]. split.
  - destruct (send_cog_help_embed Sample.help Sample.mod_cog)
      as (embed & Hrun & Htitle & _ & _ & _ & Hnone & _).
    exists embed. split; [exact Hrun|]. split; [exact Htitle|].
    apply Hnone. reflexivity.
  - destruct (send_cog_help_embed Sample.help Sample.fun_cog)
      as (embed & Hrun & _ & _ & _ & _ & _ & Hsome).
    exists embed. split; [exact Hrun|]. apply Hsome. discriminate.
Defined.

(** X3: the page of a group is one embed, sent to the destination of the
    help command, with the qualified name of the group as title, the
    colour of the class, no footer, and one field per filtered subcommand,
    named by its signature line, in order.  A group none of whose
    subcommands passes the filter gets an embed without fields, the same
    embed as a command with these attributes that is not a group. *)
Theorem send_group_help_embed (self : PaginatedHelpCommand.t)
    (group : Command.t) (commands : list Command.t) :
  Command.commands group = Some commands ->
  exists embed : Embed.t,
    run (PaginatedHelpCommand.send_group_help self group)
    = [Send (HelpCommand.get_destination self) embed]
    /\ Embed.title embed = Some (Command.qualified_name group)
    /\ Embed.colour embed = Some (HelpCommand.COLOUR self)
    /\ Embed.footer embed = None
    /\ Embed.name <$> Embed.fields embed
       = PaginatedHelpCommand.get_command_signature self
           <$> HelpCommand.filter_commands self commands true
    /\ (HelpCommand.filter_commands self commands true = [] ->
        run (PaginatedHelpCommand.send_group_help self group)
        = run (PaginatedHelpCommand.send_group_help self
                 (Command.mk (Command.name group) (Command.qualified_name group)
                    (Command.signature group) (Command.help group)
                    (Command.short_doc group) None))).
Proof.
  intros Hg. eexists. split; [reflexivity|].
  unfold PaginatedHelpCommand.send_group_help. rewrite Hg. simpl.
  set (filtered := HelpCommand.filter_commands self commands true).
  set (e0 := match Command.help group with
             | Some h => _
             | None => _
             end).
  destruct (add_command_fields_rest self filtered e0) as (-> & -> & _ & ->).
  rewrite add_command_fields_fields.
  assert (He0 : Embed.title e0 = Some (Command.qualified_name group)
                /\ Embed.colour e0 = Some (HelpCommand.COLOUR self)
                /\ Embed.fields e0 = [] /\ Embed.footer e0 = None)
    by (subst e0; destruct (Command.help group) as [h|];
        [by destruct (Py.truthy h)|done]).
  destruct He0 as (-> & -> & -> & ->).
  do 3 (split; [reflexivity|]).
  split; [simpl; by rewrite <- list_fmap_compose|].
  intros Hnil. rewrite Hnil. reflexivity.
Qed.

Lemma send_group_help_embed_witness :
  Command.commands Sample.mod_group = Some [Sample.kick; Sample.ban]
  /\ (exists embed : Embed.t,
        run (PaginatedHelpCommand.send_group_help Sample.help Sample.mod_group)
        = [Send 77 embed]
        /\ Embed.title embed = Some "mod"
        /\ Embed.footer embed = None
        /\ Embed.name <$> Embed.fields embed
           = ["!mod ban <member> [reason]"; "!mod kick <member>"]).
Proof.
  split; [reflexivity|].
  destruct (send_group_help_embed Sample.help Sample.mod_group
              [Sample.kick; Sample.ban] eq_refl)
    as (embed & Hrun & Htitle & _ & Hfooter & Hnames & _).
  exists embed. split; [exact Hrun|]. split; [exact Htitle|].
  split; [exact Hfooter|]. rewrite Hnames. reflexivity.
Defined.

(** ** The field list of the bot help *)

Lemma bot_help_fields_spec (self : PaginatedHelpCommand.t)
    (mapping : list (option Cog.t * list Command.t)) :
  PaginatedHelpCommand.bot_help_fields self mapping = Spec.bot_help_fields self mapping.
Proof.
  unfold PaginatedHelpCommand.bot_help_fields. cbn zeta.
  by rewrite bot_help_loop_spec.
Qed.

Lemma command_names_nonempty (prefix : string) (c : Command.t)
    (filtered : list Command.t) :
  Spec.command_names prefix (c :: filtered) <> EmptyString.
Proof.
  unfold Spec.command_names, Py.join. rewrite fmap_cons.
  destruct ((fun c0 => Py.backtick +:+ prefix +:+ Command.name c0 +:+ Py.backtick)
              <$> filtered) as [|s rest]; simpl; discriminate.
Qed.

(** X4: the loop of [send_bot_help] treats every cog on its own and keeps
    the order of the mapping: the field list of two mappings laid end to
    end is the field list of the first followed by that of the second, and
    the empty mapping gives the empty list. *)
Theorem bot_help_fields_app (self : PaginatedHelpCommand.t)
    (m1 m2 : list (option Cog.t * list Command.t)) :
  PaginatedHelpCommand.bot_help_fields self (m1 ++ m2)
  = (PaginatedHelpCommand.bot_help_fields self m1
     ++ PaginatedHelpCommand.bot_help_fields self m2)%list
  /\ PaginatedHelpCommand.bot_help_fields self [] = [].
Proof.
  split; [|reflexivity].
  rewrite !bot_help_fields_spec. apply spec_bot_help_fields_app.
Qed.

(** X5: the bot help has as many fields as the mapping has cogs with a
    command that passes the filter; it never has more fields than the
    mapping has cogs, and has as many exactly when every cog has such a
    command. *)
Theorem bot_help_fields_length (self : PaginatedHelpCommand.t)
    (mapping : list (option Cog.t * list Command.t)) :
  length (PaginatedHelpCommand.bot_help_fields self mapping)
  = length (List.filter (Spec.has_commands self) mapping)
  /\ (length (PaginatedHelpCommand.bot_help_fields self mapping) <= length mapping)%nat
  /\ (length (PaginatedHelpCommand.bot_help_fields self mapping) = length mapping
      <-> Forall
            (fun item => HelpCommand.filter_commands self (snd item) true <> [])
            mapping).
Proof.
  rewrite bot_help_fields_spec. unfold Spec.bot_help_fields. cbn zeta.
  rewrite length_fmap.
  assert (Hhas : forall item,
    Spec.has_commands self item = true
    <-> HelpCommand.filter_commands self (snd item) true <> []).
  { intros item. unfold Spec.has_commands.
    destruct (HelpCommand.filter_commands self (snd item) true); simpl; split; done. }
  split; [reflexivity|]. split; [apply List.filter_length_le|].
  induction mapping as [|item mapping IH]; simpl.
  - split; [constructor|done].
  - pose proof (List.filter_length_le (Spec.has_commands self) mapping) as Hle.
    destruct (Spec.has_commands self item) eqn:E; simpl.
    + split.
      * intros [= Hlen]. constructor; [by apply Hhas|by apply IH].
      * intros Hall. inversion Hall as [|? ? _ Hrest]; subst.
        f_equal. by apply IH.
    + split; [lia|].
      intros Hall. inversion Hall as [|? ? Hitem _]; subst.
      apply Hhas in Hitem. congruence.
Qed.

(** X6: every pair of the bot help has a value that is not empty, and a
    name that is the qualified name of a cog of the mapping, or
    [No Category] for the commands the mapping files under no cog. *)
Theorem bot_help_fields_wellformed (self : PaginatedHelpCommand.t)
    (mapping : list (option Cog.t * list Command.t)) :
  Forall
    (fun pair =>
       snd pair <> EmptyString
       /\ exists item,
            In item mapping
            /\ HelpCommand.filter_commands self (snd item) true <> []
            /\ fst pair
               = match fst item with
                 | Some cog => Cog.qualified_name cog
                 | None => "No Category"
                 end)
    (PaginatedHelpCommand.bot_help_fields self mapping).
Proof.
  rewrite bot_help_fields_spec. unfold Spec.bot_help_fields. cbn zeta.
  apply Forall_fmap, Forall_forall. intros [cog commands] Hin.
  apply list_elem_of_In, List.filter_In in Hin as [Hin Hhas].
  unfold Spec.has_commands in Hhas. simpl in *.
  destruct (HelpCommand.filter_commands self commands true) as [|c filtered] eqn:E;
    [discriminate|].
  split.
  - unfold Spec.field_value. destruct cog as [cog|].
    + destruct (String.eqb_spec (Cog.description cog) EmptyString).
      * apply command_names_nonempty.
      * by apply append_nonempty_l.
    + apply command_names_nonempty.
  - exists (cog, commands). simpl. rewrite E. split; [done|]. split; [done|].
    by destruct cog.
Qed.

(** X7: the bot help has no field exactly when no cog of the mapping has a
    command that passes the filter.  [send_bot_help] has no guard for this
    case: it still starts the menu, on a page source without entries and
    with zero pages. *)
Theorem bot_help_nothing_visible (self : PaginatedHelpCommand.t)
    (mapping : list (option Cog.t * list Command.t)) :
  (PaginatedHelpCommand.bot_help_fields self mapping = []
   <-> Forall (fun item => HelpCommand.filter_commands self (snd item) true = [])
         mapping)
  /\ (Forall (fun item => HelpCommand.filter_commands self (snd item) true = [])
        mapping ->
      exists pages : HelpButtonMenuPages.t,
        run (PaginatedHelpCommand.send_bot_help self mapping)
        = [Start pages (HelpCommand.context self)]
        /\ menus.ListPageSource.entries
             (HelpPageSource.base
                (menus.ButtonMenuPages.source (HelpButtonMenuPages.base pages)))
           = []
        /\ HelpPageSource.get_max_pages
             (menus.ButtonMenuPages.source (HelpButtonMenuPages.base pages))
           = 0).
Proof.
  assert (Hiff : PaginatedHelpCommand.bot_help_fields self mapping = []
    <-> Forall (fun item => HelpCommand.filter_commands self (snd item) true = [])
          mapping).
  { rewrite bot_help_fields_spec. unfold Spec.bot_help_fields. cbn zeta.
    set (mk := fun item : option Cog.t * list Command.t => _).
    assert (Hnil : forall l : list (option Cog.t * list Command.t),
              mk <$> l = [] <-> l = [])
      by (intros l; split; [apply fmap_nil_inv|by intros ->]).
    rewrite Hnil. clear Hnil mk.
    induction mapping as [|item mapping IH]; simpl.
    - split; [constructor|done].
    - unfold Spec.has_commands at 1.
      destruct (HelpCommand.filter_commands self (snd item) true) eqn:E; simpl.
      + rewrite IH. split.
        * intros Hall. by constructor.
        * intros Hall. by inversion Hall.
      + split; [done|]. intros Hall. inversion Hall; congruence. }
  split; [exact Hiff|].
  intros Hall. apply Hiff in Hall.
  eexists. rewrite send_bot_help_run. split; [reflexivity|].
  simpl. rewrite Hall. split; reflexivity.
Qed.

Lemma bot_help_nothing_visible_witness :
  Forall (fun item => HelpCommand.filter_commands Sample.help (snd item) true = [])
    [(Some Sample.empty_cog, [Sample.secret]); (None, [])]
  /\ PaginatedHelpCommand.bot_help_fields Sample.help
       [(Some Sample.empty_cog, [Sample.secret]); (None, [])]
     = []
  /\ (exists pages : HelpButtonMenuPages.t,
        run (PaginatedHelpCommand.send_bot_help Sample.help
               [(Some Sample.empty_cog, [Sample.secret]); (None, [])])
        = [Start pages Sample.ctx]
        /\ HelpPageSource.get_max_pages
             (menus.ButtonMenuPages.source (HelpButtonMenuPages.base pages))
           = 0).
Proof.
  assert (Hall : Forall
    (fun item => HelpCommand.filter_commands Sample.help (snd item) true = [])
    [(Some Sample.empty_cog, [Sample.secret]); (None, [])])
    by (repeat constructor).
  destruct (bot_help_nothing_visible Sample.help
              [(Some Sample.empty_cog, [Sample.secret]); (None, [])])
    as (Hiff & Hmenu).
  split; [exact Hall|]. split; [by apply Hiff|].
  destruct (Hmenu Hall) as (pages & Hrun & _ & Hmax).
  exists pages. split; [exact Hrun|exact Hmax].
Defined.

(** ** What the coroutines hand to the framework *)

(** X8: [send_bot_help] sends no message of its own: it adds one thing to
    what was handed to the framework before, the start of one menu in the
    invoking context.  The menu checks interactions against that context,
    disables its buttons when it ends, and pages a source that refers back
    to the help command itself.  [send_cog_help], [send_group_help] and
    [send_command_help] add one message to the destination of the help
    command and start no menu. *)
Theorem help_coroutines_effects (self : PaginatedHelpCommand.t) (log : list Effect) :
  (forall mapping : list (option Cog.t * list Command.t),
     exists pages : HelpButtonMenuPages.t,
       PaginatedHelpCommand.send_bot_help self mapping log
       = (tt, (log ++ [Start pages (HelpCommand.context self)])%list)
       /\ HelpButtonMenuPages._ctx pages = HelpCommand.context self
       /\ menus.ButtonMenuPages.disable_buttons_after (HelpButtonMenuPages.base pages)
          = true
       /\ HelpPageSource._help_command
            (menus.ButtonMenuPages.source (HelpButtonMenuPages.base pages))
          = self
       /\ menus.ListPageSource.per_page
            (HelpPageSource.base
               (menus.ButtonMenuPages.source (HelpButtonMenuPages.base pages)))
          = 2)
  /\ (forall cog : Cog.t,
        exists embed : Embed.t,
          PaginatedHelpCommand.send_cog_help self cog log
          = (tt, (log ++ [Send (HelpCommand.get_destination self) embed])%list))
  /\ (forall group : Command.t,
        exists embed : Embed.t,
          PaginatedHelpCommand.send_group_help self group log
          = (tt, (log ++ [Send (HelpCommand.get_destination self) embed])%list)
          /\ PaginatedHelpCommand.send_command_help self group log
             = (tt, (log ++ [Send (HelpCommand.get_destination self) embed])%list)).
Proof.
  split; [|split].
  - intros mapping. eexists. split; [reflexivity|]. by repeat split.
  - intros cog. by eexists.
  - intros group. by eexists.
Qed.

(** ** The pages of the bot help *)

(** X9: all pages of a help menu share their head: whatever the menu, its
    current page and the entries, [format_page] gives the embed the same
    title, the colour of the help command the source was made for, and the
    same description, the usage hint written with the clean prefix and the
    name the help command was invoked with.  Only the fields and the
    footer change from page to page. *)
Theorem format_page_head (help_command : HelpCommand.t)
    (data : list (string * string)) {S1 S2 : Type}
    (menu1 : menus.ButtonMenuPages.t S1) (menu2 : menus.ButtonMenuPages.t S2)
    (entries1 entries2 : list (string * string)) :
  let source := HelpPageSource.__init__ help_command data in
  let embed1 := HelpPageSource.format_page source menu1 entries1 in
  let embed2 := HelpPageSource.format_page source menu2 entries2 in
  Embed.title embed1 = Embed.title embed2
  /\ Embed.colour embed1 = Embed.colour embed2
  /\ Embed.description embed1 = Embed.description embed2
  /\ Embed.colour embed1 = Some (HelpCommand.COLOUR help_command)
  /\ Embed.description embed1
     = Some (HelpPageSource.usage
               (Context.clean_prefix (HelpCommand.context help_command))
               (HelpCommand.invoked_with help_command)).
Proof.
  cbn zeta. unfold HelpPageSource.format_page. cbn zeta.
  simpl Embed.title. simpl Embed.colour. simpl Embed.description.
  set (e0 := Embed.set_description _ _).
  destruct (add_field_loop_rest (A := string * string) fst snd true entries1 e0)
    as (-> & -> & -> & _).
  destruct (add_field_loop_rest (A := string * string) fst snd true entries2 e0)
    as (-> & -> & -> & _).
  by repeat split.
Qed.

(** X10: paging loses nothing and repeats nothing.  When the pages of the
    source that [send_bot_help] builds are formatted one after the other,
    the names and values of the fields of the embeds, read in order, are
    the field list of the bot help; and no embed has more than two
    fields. *)
Theorem bot_help_pages_cover_fields (self : PaginatedHelpCommand.t)
    (mapping : list (option Cog.t * list Command.t)) {S : Type}
    (menu : menus.ButtonMenuPages.t S) :
  let source :=
    HelpPageSource.__init__ self (PaginatedHelpCommand.bot_help_fields self mapping) in
  let embeds :=
    HelpPageSource.format_page source menu
      <$> menus.ListPageSource.pages (HelpPageSource.base source) in
  concat ((fun embed => (fun f => (Embed.name f, Embed.value f)) <$> Embed.fields embed)
            <$> embeds)
  = PaginatedHelpCommand.bot_help_fields self mapping
  /\ Forall (fun embed => (length (Embed.fields embed) <= 2)%nat) embeds.
Proof.
  cbn zeta.
  set (data := PaginatedHelpCommand.bot_help_fields self mapping).
  split.
  - rewrite <- list_fmap_compose.
    rewrite (list_fmap_ext _ id (menus.ListPageSource.pages
               (HelpPageSource.base (HelpPageSource.__init__ self data)))).
    + rewrite list_fmap_id. apply pages_concat.
    + intros i page _. unfold compose, id. apply format_page_pairs.
  - apply Forall_fmap, Forall_lookup. intros k page Hk. unfold compose.
    apply pages_lookup in Hk as [_ ->].
    rewrite <- (length_fmap (fun f => (Embed.name f, Embed.value f))).
    rewrite format_page_pairs, length_take. lia.
Qed.

(** ** Construction, authorization, and the names of the class *)

(** X11: without the menus add-on the constructor fails before the base
    class is initialised: the outcome does not depend on what the base
    constructor would do.  The error carries the name of the class of the
    object under construction, so a subclass is reported under its own
    name. *)
Theorem init_fails_before_base_init (g : Globals.t)
    (super_init1 super_init2 : PaginatedHelpCommand.t -> PaginatedHelpCommand.t)
    (self : PaginatedHelpCommand.t) :
  Globals.HAS_MENUS g = false ->
  PaginatedHelpCommand.__init__ g super_init1 self
  = inl (MissingDependencyError (HelpCommand.class_name self)
           "nextcord-ext-menus" "menus")
  /\ PaginatedHelpCommand.__init__ g super_init1 self
     = PaginatedHelpCommand.__init__ g super_init2 self.
Proof.
  intros Hmenus. unfold PaginatedHelpCommand.__init__. by rewrite Hmenus.
Qed.

Lemma init_fails_before_base_init_witness :
  Globals.HAS_MENUS (module_init false) = false
  /\ PaginatedHelpCommand.__init__ (module_init false) (fun self => self)
       {| HelpCommand.class_name := "MyHelpCommand";
          HelpCommand.COLOUR := 5793266;
          HelpCommand.context := Sample.ctx;
          HelpCommand.invoked_with := "help";
          HelpCommand.filter_commands := Sample.filter_commands;
          HelpCommand.get_destination := 77 |}
     = inl (MissingDependencyError "MyHelpCommand" "nextcord-ext-menus" "menus").
Proof.
  split; [reflexivity|].
  apply (init_fails_before_base_init (module_init false)
           (fun self => self) (fun self => self)
           {| HelpCommand.class_name := "MyHelpCommand";
              HelpCommand.COLOUR := 5793266;
              HelpCommand.context := Sample.ctx;
              HelpCommand.invoked_with := "help";
              HelpCommand.filter_commands := Sample.filter_commands;
              HelpCommand.get_destination := 77 |}).
  reflexivity.
Defined.

(** X12: the check of a menu looks at nothing but the author of its
    context.  An interaction without a user is refused; two users that
    both pass the check of one menu are the same user; and two menus made
    for contexts of the same author give the same answer to every
    interaction, whatever their sources and current pages. *)
Theorem interaction_check_author_only (menu : HelpButtonMenuPages.t) :
  (forall interaction : Interaction.t,
     Interaction.user interaction = None ->
     HelpButtonMenuPages.interaction_check menu interaction = false)
  /\ (forall u v : User.t,
        HelpButtonMenuPages.interaction_check menu (Interaction.mk (Some u)) = true ->
        HelpButtonMenuPages.interaction_check menu (Interaction.mk (Some v)) = true ->
        u = v)
  /\ (forall (other : HelpButtonMenuPages.t) (interaction : Interaction.t),
        Context.author (HelpButtonMenuPages._ctx other)
        = Context.author (HelpButtonMenuPages._ctx menu) ->
        HelpButtonMenuPages.interaction_check other interaction
        = HelpButtonMenuPages.interaction_check menu interaction).
Proof.
  unfold HelpButtonMenuPages.interaction_check. split; [|split].
  - by intros interaction ->.
  - intros u v Hu Hv. cbn [Interaction.user] in Hu, Hv.
    apply user_eq_true in Hu, Hv. congruence.
  - by intros other interaction ->.
Qed.

(** X13: every name the class body binds to something callable is one of
    the constructor, the signature line and the four help pages; the only
    other name it binds that does not start with two underscores is
    [COLOUR].  Every other public attribute of a help command is left to
    the base class.  The docstring of the class is bound to [__doc__]. *)
Theorem class_namespace_names (blurple : Colour) :
  exists ns : gmap string ClassBody.value,
    ClassBody.namespace blurple = Some ns
    /\ (forall (name : string) (v : ClassBody.value),
          ns !! name = Some v -> ClassBody.callable v = true ->
          In name
            [ "__init__"; "get_command_signature"; "send_bot_help";
              "send_cog_help"; "send_group_help"; "send_command_help" ])
    /\ (forall name : string,
          String.prefix "__" name = false ->
          ~ In name
              [ "COLOUR"; "get_command_signature"; "send_bot_help";
                "send_cog_help"; "send_group_help"; "send_command_help" ] ->
          ns !! name = None)
    /\ ns !! "COLOUR" = Some (ClassBody.Constant blurple)
    /\ ns !! "__doc__"
       = Some (ClassBody.Text
                 "Custom help command override using embeds and button pagination").
Proof.
  eexists. split.
  - unfold ClassBody.namespace, ClassBody.body. simpl.
    rewrite lookup_insert_eq. reflexivity.
  - split; [|split; [|split]].
    + intros name v Hlook Hcall.
      repeat (rewrite lookup_insert in Hlook; case_decide;
              [ simplify_eq; first [ by simpl in Hcall | simpl; tauto ] | ]).
      rewrite lookup_empty in Hlook. discriminate.
    + intros name Hprefix Hname.
      rewrite !lookup_insert_ne
        by (intros <-; first [ by vm_compute in Hprefix
                             | apply Hname; simpl; tauto ]).
      apply lookup_empty.
    + repeat (first [ rewrite lookup_insert_eq; reflexivity
                    | rewrite lookup_insert_ne by discriminate ]).
    + repeat (first [ rewrite lookup_insert_eq; reflexivity
                    | rewrite lookup_insert_ne by discriminate ]).
Qed.

(** ** Sizes *)

Lemma join_length (sep : string) (parts : list string) :
  String.length (Py.join sep parts)
  = (sum_list_with String.length parts
     + String.length sep * (length parts - 1))%nat.
Proof.
  unfold Py.join. induction parts as [|s [|s' rest] IH].
  - simpl. lia.
  - simpl. lia.
  - change (String.concat sep (s :: s' :: rest))
      with (s +:+ sep +:+ String.concat sep (s' :: rest)).
    rewrite !length_append, IH. simpl. lia.
Qed.

(** X14: the value of a pair of the bot help is never cut short: its length
    is that of the description and its newline, when the cog has a
    description, plus, for every filtered command, the lengths of the
    prefix and of the name and the two backticks, plus the three bytes of
    an en space between neighbours. *)
Theorem bot_help_value_length (self : PaginatedHelpCommand.t)
    (cog : option Cog.t) (commands : list Command.t) :
  HelpCommand.filter_commands self commands true <> [] ->
  exists value : string,
    PaginatedHelpCommand.bot_help_fields self [(cog, commands)]
    = [(Spec.field_name cog, value)]
    /\ String.length value
       = (match cog with
          | Some c =>
              if String.eqb (Cog.description c) EmptyString then 0
              else String.length (Cog.description c) + 1
          | None => 0
          end
          + sum_list_with
              (fun c =>
                 String.length (Context.clean_prefix (HelpCommand.context self))
                 + String.length (Command.name c) + 2)
              (HelpCommand.filter_commands self commands true)
          + 3 * (length (HelpCommand.filter_commands self commands true) - 1))%nat.
Proof.
  intros Hne. rewrite bot_help_fields_spec.
  set (prefix := Context.clean_prefix (HelpCommand.context self)).
  destruct (HelpCommand.filter_commands self commands true) as [|c rest] eqn:E;
    [done|].
  assert (Hfields : Spec.bot_help_fields self [(cog, commands)]
    = [(Spec.field_name cog, Spec.field_value prefix cog (c :: rest))]).
  { unfold Spec.bot_help_fields, Spec.has_commands. cbn [List.filter fst snd].
    rewrite E. cbn [length Nat.eqb negb]. rewrite fmap_cons. cbn [fst snd].
    by rewrite E. }
  rewrite Hfields. eexists. split; [reflexivity|].
  assert (Hnames : String.length (Spec.command_names prefix (c :: rest))
    = (sum_list_with
         (fun c0 => String.length prefix + String.length (Command.name c0) + 2)
         (c :: rest)
       + 3 * (length (c :: rest) - 1))%nat).
  { unfold Spec.command_names. rewrite join_length, length_fmap.
    f_equal. clear. induction (c :: rest) as [|d l IH]; [done|].
    rewrite fmap_cons. cbn [sum_list_with]. rewrite IH, !length_append. simpl. lia. }
  unfold Spec.field_value. destruct cog as [cog|]; [|by rewrite Hnames].
  destruct (String.eqb (Cog.description cog) EmptyString); [by rewrite Hnames|].
  rewrite !length_append, Hnames. simpl String.length. lia.
Qed.

Lemma bot_help_value_length_witness :
  HelpCommand.filter_commands Sample.help [Sample.ping; Sample.echo] true <> []
  /\ (exists value : string,
        PaginatedHelpCommand.bot_help_fields Sample.help
          [(Some Sample.fun_cog, [Sample.ping; Sample.echo])]
        = [("Fun", value)]
        /\ String.length value = 32%nat).
Proof.
  split; [discriminate|].
  destruct (bot_help_value_length Sample.help (Some Sample.fun_cog)
              [Sample.ping; Sample.echo])
    as (value & Hfields & Hlen); [discriminate|].
  exists value. split; [exact Hfields|]. rewrite Hlen. reflexivity.
Defined.

(** X15: the menu of the bot help has half as many pages as the mapping
    has cogs with a command that passes the filter, rounded up. *)
Theorem bot_help_max_pages (self : PaginatedHelpCommand.t)
    (mapping : list (option Cog.t * list Command.t)) :
  exists pages : HelpButtonMenuPages.t,
    run (PaginatedHelpCommand.send_bot_help self mapping)
    = [Start pages (HelpCommand.context self)]
    /\ HelpPageSource.get_max_pages
         (menus.ButtonMenuPages.source (HelpButtonMenuPages.base pages))
       = Qceiling
           (Z.of_nat (length (List.filter (Spec.has_commands self) mapping)) # 2).
Proof.
  eexists. rewrite send_bot_help_run. split; [reflexivity|].
  cbn [HelpButtonMenuPages.__init__ HelpButtonMenuPages.base
       menus.ButtonMenuPages.__init__ menus.ButtonMenuPages.source].
  rewrite max_pages_ceiling, bot_help_fields_spec.
  unfold Spec.bot_help_fields. cbn zeta. by rewrite length_fmap.
Qed.
